(** * kiwi: isolinux bootloader configuration

    A shallow embedding of [kiwi/bootloader/config/isolinux.py]
    (class [BootLoaderConfigIsoLinux]) together with the properties of it
    that the specification states.

    Python objects are records, [None]-able values are [option]s, the
    dictionaries handed to [string.Template] are [gmap]s, and the methods
    that touch the object, the file system or the log are written in a
    small state-and-exception monad. Paths are compared as the literal
    strings the code builds; links and path normalisation are outside the
    model. *)

From Stdlib Require Import ZArith String Ascii List DecimalString.
From stdpp Require Import base option gmap strings list fin_maps.

(** ** Python primitives *)

Module Py.

(** The values that reach a template parameter map. *)
Inductive value :=
| Str (s : string)
| Int (z : Z).

(** [str(v)] *)
Definition str (v : value) : string :=
  match v with
  | Str s => s
  | Int z => NilZero.string_of_int (Z.to_int z)
  end.

(** [sep.join(l)] *)
Fixpoint join (sep : string) (l : list string) : string :=
  match l with
  | [] => ""
  | [x] => x
  | x :: r => x +:+ sep +:+ join sep r
  end.

(** Truth value of an optional string: [None] and [''] are false. *)
Definition truthy (o : option string) : bool :=
  match o with
  | None => false
  | Some s => negb (String.eqb s "")
  end.

(** Truth value of an optional flag: [None] and [False] are false. *)
Definition truthy_flag (o : option bool) : bool :=
  match o with
  | None => false
  | Some b => b
  end.

(** [a or b] where [a] may be [None] *)
Definition or_ (a : option string) (b : string) : string :=
  match a with
  | Some s => if String.eqb s "" then b else s
  | None => b
  end.

(** ['fmt{0}'.format(x)] with the placeholder at the end *)
Definition format0 (fmt x : string) : string := fmt +:+ x.

Definition has_slash (s : string) : bool :=
  existsb (Ascii.eqb "/"%char) (list_ascii_of_string s).

Fixpoint all_slash (s : string) : bool :=
  match s with
  | EmptyString => true
  | String c r => Ascii.eqb c "/"%char && all_slash r
  end.

(** [p[:p.rfind('/') + 1]] *)
Fixpoint upto_last_slash (p : string) : string :=
  match p with
  | EmptyString => EmptyString
  | String c r =>
      if has_slash r then String c (upto_last_slash r)
      else if Ascii.eqb c "/"%char then String c EmptyString
      else EmptyString
  end.

(** [s.rstrip('/')] *)
Fixpoint rstrip_slash (s : string) : string :=
  match s with
  | EmptyString => EmptyString
  | String c r =>
      match rstrip_slash r with
      | EmptyString =>
          if Ascii.eqb c "/"%char then EmptyString else String c EmptyString
      | r' => String c r'
      end
  end.

(** [os.path.dirname(p)] (posixpath) *)
Definition dirname (p : string) : string :=
  let head := upto_last_slash p in
  if all_slash head then head else rstrip_slash head.

(** [p[p.rfind('/') + 1:]], the tail [os.path.basename] returns *)
Fixpoint basename (p : string) : string :=
  match p with
  | EmptyString => EmptyString
  | String c r =>
      if has_slash r then basename r
      else if Ascii.eqb c "/"%char then r
      else p
  end.

End Py.

(** ** Exceptions and outcomes *)

Inductive exn :=
| KiwiBootLoaderIsoLinuxPlatformError (msg : string)
| KiwiTemplateError (msg : string)
| KiwiCommandError (msg : string)
| KiwiDataSyncError (msg : string)
| KeyError (key : string)
| ValueError (msg : string)
| FileNotFoundError (path : string)
| IsADirectoryError (path : string)
| SameFileError (path : string).

(** [type(e).__name__] *)
Definition exn_name (e : exn) : string :=
  match e with
  | KiwiBootLoaderIsoLinuxPlatformError _ => "KiwiBootLoaderIsoLinuxPlatformError"
  | KiwiTemplateError _ => "KiwiTemplateError"
  | KiwiCommandError _ => "KiwiCommandError"
  | KiwiDataSyncError _ => "KiwiDataSyncError"
  | KeyError _ => "KeyError"
  | ValueError _ => "ValueError"
  | FileNotFoundError _ => "FileNotFoundError"
  | IsADirectoryError _ => "IsADirectoryError"
  | SameFileError _ => "SameFileError"
  end.

(** [format(e)]: the message; a [KeyError] shows the repr of its key. *)
Definition exn_format (e : exn) : string :=
  match e with
  | KiwiBootLoaderIsoLinuxPlatformError m
  | KiwiTemplateError m
  | KiwiCommandError m
  | KiwiDataSyncError m
  | ValueError m => m
  | KeyError k => "'" +:+ k +:+ "'"
  | FileNotFoundError p =>
      "[Errno 2] No such file or directory: '" +:+ p +:+ "'"
  | IsADirectoryError p =>
      "[Errno 21] Is a directory: '" +:+ p +:+ "'"
  | SameFileError p => "'" +:+ p +:+ "' and '" +:+ p +:+ "' are the same file"
  end.

Inductive outcome (A : Type) :=
| Return (a : A)
| Raise (e : exn).
Arguments Return {A} a.
Arguments Raise {A} e.

(** ** [string.Template] *)

(** A template body after Python's placeholder scan: literal text, a
    [$name] / [${name}] placeholder, or a malformed [$] at a position. *)
Inductive segment :=
| Lit (text : string)
| Named (name : string)
| Invalid (lineno colno : nat).

Definition Template := list segment.

Definition nat_str (n : nat) : string :=
  NilZero.string_of_uint (Nat.to_uint n).

(** [Template.substitute(mapping)]: the first placeholder that cannot be
    replaced raises. *)
Fixpoint substitute (t : Template) (mapping : gmap string Py.value)
  : outcome string :=
  match t with
  | [] => Return ""
  | Lit s :: r =>
      match substitute r mapping with
      | Return out => Return (s +:+ out)
      | Raise e => Raise e
      end
  | Named k :: r =>
      match mapping !! k with
      | None => Raise (KeyError k)
      | Some v =>
          match substitute r mapping with
          | Return out => Return (Py.str v +:+ out)
          | Raise e => Raise e
          end
      end
  | Invalid l c :: _ =>
      Raise (ValueError ("Invalid placeholder in string: line " +:+ nat_str l
                         +:+ ", col " +:+ nat_str c))
  end.

(** ** Collaborators of the class *)

(** [self.xml_state.build_type] *)
Record BuildType := {
  get_volid : option string;
  get_flags : option string;
  get_hybridpersistent : option bool;
  get_hybridpersistent_filesystem : option string;
  get_bootloader_console : option string;
  get_mediacheck : option bool
}.

(** [self.xml_state] *)
Record XMLState := {
  build_type : BuildType;
  get_initrd_system : option string;
  is_xen_server : bool
}.

(** [kiwi.defaults.Defaults]: the static policy values the class reads. *)
Record Defaults := {
  get_install_volume_id : string;
  get_volume_id : string;
  get_default_live_iso_type : string;
  get_live_iso_persistent_boot_options : option string -> list string;
  get_failsafe_kernel_options : string
}.

(** [kiwi.bootloader.template.isolinux.BootLoaderTemplateIsoLinux] *)
Record BootLoaderTemplateIsoLinux := {
  get_install_template : bool -> bool -> option string -> Template;
  get_multiboot_install_template : bool -> bool -> option string -> Template;
  get_template : bool -> bool -> option string -> option bool -> Template;
  get_multiboot_template :
    bool -> bool -> option string -> option bool -> Template;
  get_install_message_template : Template;
  get_message_template : Template
}.

(** What the class inherits from [BootLoaderConfigBase]: the fields set by
    the base constructor and the results of the base methods it calls. *)
Record BootLoaderConfigBase := {
  root_dir : string;
  xml_state : XMLState;
  get_gfxmode : string -> string;
  get_boot_timeout_seconds : Z;
  get_boot_cmdline : string;
  failsafe_boot_entry_requested : bool;
  get_install_image_boot_default : string -> string;
  get_menu_entry_install_title : string;
  get_menu_entry_title : bool -> string;
  get_boot_theme : option string
}.

(** The module-level names [post_init] reaches for. *)
Record Host := {
  platform_machine : string;
  defaults : Defaults;
  new_BootLoaderTemplateIsoLinux : BootLoaderTemplateIsoLinux
}.

(** ** The object *)

Record BootLoaderConfigIsoLinux := {
  base : BootLoaderConfigBase;
  custom_args : option (gmap string Py.value);
  arch : string;
  install_volid : string;
  volume_id : string;
  live_type : string;
  live_boot_options : list string;
  install_boot_options : list string;
  terminal : option string;
  gfxmode : string;
  timeout : Z;
  cmdline : string;
  cmdline_failsafe : string;
  failsafe_boot : bool;
  mediacheck_boot : option bool;
  multiboot : bool;
  isolinux : BootLoaderTemplateIsoLinux;
  config : option string;
  config_message : option string
}.

(** Lines 48-56 of [post_init]: the supported host architectures. *)
Definition resolve_arch (arch : string) : outcome string :=
  if String.eqb arch "x86_64" then Return arch
  else if String.eqb arch "i686" || String.eqb arch "i586" then Return "ix86"
  else Raise (KiwiBootLoaderIsoLinuxPlatformError
                ("host architecture " +:+ arch
                 +:+ " not supported for isolinux setup")).

Definition post_init (h : Host) (b : BootLoaderConfigBase)
    (custom_args : option (gmap string Py.value))
  : outcome BootLoaderConfigIsoLinux :=
  match resolve_arch (platform_machine h) with
  | Raise e => Raise e
  | Return arch =>
      let bt := build_type (xml_state b) in
      let install_volid :=
        Py.or_ (get_volid bt) (get_install_volume_id (defaults h)) in
      let volume_id :=
        Py.or_ (get_volid bt) (get_volume_id (defaults h)) in
      let live_type :=
        Py.or_ (get_flags bt) (get_default_live_iso_type (defaults h)) in
      let live_boot_options :=
        [Py.format0 "root=live:CDLABEL=" volume_id; "rd.live.image"] in
      let install_boot_options := ["loglevel=0"] in
      let install_boot_options :=
        if bool_decide (get_initrd_system (xml_state b) = Some "dracut")
        then install_boot_options
               ++ [Py.format0 "root=install:CDLABEL=" install_volid]
        else install_boot_options in
      let live_boot_options :=
        if Py.truthy_flag (get_hybridpersistent bt)
        then live_boot_options
               ++ get_live_iso_persistent_boot_options (defaults h)
                    (get_hybridpersistent_filesystem bt)
        else live_boot_options in
      let cmdline := get_boot_cmdline b in
      Return {|
        base := b;
        custom_args := custom_args;
        arch := arch;
        install_volid := install_volid;
        volume_id := volume_id;
        live_type := live_type;
        live_boot_options := live_boot_options;
        install_boot_options := install_boot_options;
        terminal := get_bootloader_console bt;
        gfxmode := get_gfxmode b "isolinux";
        (* isolinux counts the timeout in units of 1/10 sec *)
        timeout := (get_boot_timeout_seconds b * 10)%Z;
        cmdline := cmdline;
        cmdline_failsafe :=
          Py.join " " [cmdline; get_failsafe_kernel_options (defaults h)];
        failsafe_boot := failsafe_boot_entry_requested b;
        mediacheck_boot := get_mediacheck bt;
        multiboot := if is_xen_server (xml_state b) then true else false;
        isolinux := new_BootLoaderTemplateIsoLinux h;
        config := None;
        config_message := None
      |}
  end.

(** ** The world the methods run in *)

Inductive node :=
| File (content : string)
| Directory.

(** The object together with the file system and the log it writes to. *)
Record state := {
  self : BootLoaderConfigIsoLinux;
  fs : gmap string node;
  log : list string
}.

Definition with_self (o : BootLoaderConfigIsoLinux) (st : state) : state :=
  {| self := o; fs := fs st; log := log st |}.

Definition with_fs (f : gmap string node) (st : state) : state :=
  {| self := self st; fs := f; log := log st |}.

(** State passing with exceptions; a raise keeps the state reached. *)
Definition M (A : Type) : Type := state -> outcome A * state.

#[global] Instance M_ret : MRet M := fun A a st => (Return a, st).

#[global] Instance M_bind : MBind M := fun A B k m st =>
  match m st with
  | (Return a, st') => k a st'
  | (Raise e, st') => (Raise e, st')
  end.

Definition raise {A} (e : exn) : M A := fun st => (Raise e, st).

Definition lift {A} (o : outcome A) : M A := fun st => (o, st).

(** [try: body except Exception as e: handler e] *)
Definition try_except {A} (body : M A) (handler : exn -> M A) : M A :=
  fun st =>
    match body st with
    | (Return a, st') => (Return a, st')
    | (Raise e, st') => handler e st'
    end.

Definition get_self : M BootLoaderConfigIsoLinux :=
  fun st => (Return (self st), st).

Fixpoint for_each {A} (l : list A) (body : A -> M unit) : M unit :=
  match l with
  | [] => mret tt
  | x :: r => body x ;; for_each r body
  end.

(** [self.config = c] *)
Definition set_config (c : option string) : M unit := fun st =>
  let o := self st in
  (Return tt,
   with_self {|
     base := base o; custom_args := custom_args o; arch := arch o;
     install_volid := install_volid o; volume_id := volume_id o;
     live_type := live_type o; live_boot_options := live_boot_options o;
     install_boot_options := install_boot_options o;
     terminal := terminal o; gfxmode := gfxmode o; timeout := timeout o;
     cmdline := cmdline o; cmdline_failsafe := cmdline_failsafe o;
     failsafe_boot := failsafe_boot o; mediacheck_boot := mediacheck_boot o;
     multiboot := multiboot o; isolinux := isolinux o;
     config := c; config_message := config_message o |} st).

(** [self.config_message = c] *)
Definition set_config_message (c : option string) : M unit := fun st =>
  let o := self st in
  (Return tt,
   with_self {|
     base := base o; custom_args := custom_args o; arch := arch o;
     install_volid := install_volid o; volume_id := volume_id o;
     live_type := live_type o; live_boot_options := live_boot_options o;
     install_boot_options := install_boot_options o;
     terminal := terminal o; gfxmode := gfxmode o; timeout := timeout o;
     cmdline := cmdline o; cmdline_failsafe := cmdline_failsafe o;
     failsafe_boot := failsafe_boot o; mediacheck_boot := mediacheck_boot o;
     multiboot := multiboot o; isolinux := isolinux o;
     config := config o; config_message := c |} st).

(** [log.info(msg)] *)
Definition log_info (msg : string) : M unit := fun st =>
  (Return tt, {| self := self st; fs := fs st; log := log st ++ [msg] |}).

(** [os.path.exists(p)] *)
Definition os_path_exists (p : string) : M bool := fun st =>
  (Return (bool_decide (is_Some (fs st !! p))), st).

Definition isdir (f : gmap string node) (p : string) : bool :=
  match f !! p with
  | Some Directory => true
  | _ => false
  end.

(** [with open(path, 'w') as f: f.write(content)]: the file is created or
    truncated; its directory has to exist (an empty directory part is the
    working directory). *)
Definition open_write (path content : string) : M unit := fun st =>
  if isdir (fs st) path then (Raise (IsADirectoryError path), st)
  else
    let parent := Py.dirname path in
    if String.eqb parent "" || isdir (fs st) parent
    then (Return tt, with_fs (<[path := File content]> (fs st)) st)
    else (Raise (FileNotFoundError path), st).

(** [os.path.join(a, b)] for a [b] that is a bare file name *)
Definition os_path_join (a b : string) : string :=
  if String.eqb a "" || String.eqb (Py.basename a) "" then a +:+ b
  else a +:+ "/" +:+ b.

(** [shutil.copy(src, dst)]: into [dst] under the source's name when
    [dst] is a directory, onto [dst] otherwise. *)
Definition shutil_copy (src dst : string) : M unit := fun st =>
  if isdir (fs st) dst then
    let target := os_path_join dst (Py.basename src) in
    if String.eqb src target then (Raise (SameFileError src), st)
    else
      match fs st !! src with
      | None => (Raise (FileNotFoundError src), st)
      | Some Directory => (Raise (IsADirectoryError src), st)
      | Some (File content) =>
          if isdir (fs st) target then (Raise (IsADirectoryError target), st)
          else (Return tt, with_fs (<[target := File content]> (fs st)) st)
      end
  else
    if String.eqb src dst then (Raise (SameFileError src), st)
    else
      match fs st !! src with
      | None => (Raise (FileNotFoundError src), st)
      | Some Directory => (Raise (IsADirectoryError src), st)
      | Some (File content) => open_write dst content st
      end.

(** Modelled from the spec: [kiwi.path.Path.create], the idempotent
    create-directory utility; an existing path is left as it is. Only the
    directory itself is recorded: the missing ancestors the utility makes
    on the way are not part of the model, and no property below speaks
    about them. *)
Definition Path_create (path : string) : M unit := fun st =>
  match fs st !! path with
  | Some _ => (Return tt, st)
  | None => (Return tt, with_fs (<[path := Directory]> (fs st)) st)
  end.

(** Modelled from the spec: [kiwi.path.Path.wipe], the
    recursively-wipe-directory utility; the path and everything below it
    are removed. *)
Definition Path_wipe (path : string) : M unit := fun st =>
  (Return tt,
   with_fs (filter (fun kv => String.prefix path kv.1 = false) (fs st)) st).

(** The external programs and the sync utility the stager drives:
    [execute] is a process run (did it exit with success, and the file
    system it leaves), [sync_data] is [DataSync(source, target).sync_data]. *)
Record Tools := {
  execute : list string -> gmap string node -> bool * gmap string node;
  sync_data :
    string -> string -> list string -> gmap string node ->
    outcome unit * gmap string node
}.

(** Modelled from the spec: [kiwi.command.Command.run], the generic
    external-command runner with a fatal and a best-effort mode. *)
Definition Command_run (t : Tools) (command : list string)
    (raise_on_error : bool) : M unit := fun st =>
  let '(ok, f) := execute t command (fs st) in
  if ok || negb raise_on_error then (Return tt, with_fs f st)
  else (Raise (KiwiCommandError (Py.join " " command)), with_fs f st).

Definition DataSync_sync_data (t : Tools) (source target : string)
    (options : list string) : M unit := fun st =>
  let '(r, f) := sync_data t source target options (fs st) in
  (r, with_fs f st).

(** ** Methods of [BootLoaderConfigIsoLinux] *)

Definition _get_iso_boot_path (o : BootLoaderConfigIsoLinux) : string :=
  root_dir (base o) +:+ "/boot/" +:+ arch o +:+ "/loader".

Definition _have_theme : M bool :=
  o ← get_self;
  b ← os_path_exists (_get_iso_boot_path o +:+ "/bootlogo");
  if b : bool then mret true else mret false.

Definition write : M unit :=
  log_info "Writing isolinux.cfg file" ;;
  o ← get_self;
  let config_dir := _get_iso_boot_path o in
  let config_file := config_dir +:+ "/isolinux.cfg" in
  (if Py.truthy (config o) then
     Path_create config_dir ;;
     open_write config_file (default "" (config o))
   else mret tt) ;;
  let config_file_message := config_dir +:+ "/isolinux.msg" in
  if Py.truthy (config_message o) then
    open_write config_file_message (default "" (config_message o))
  else mret tt.

(** The [parameters] dict literal of [setup_install_image_config]. *)
Definition install_parameters (o : BootLoaderConfigIsoLinux)
    (kernel initrd : string) : gmap string Py.value :=
  <["title" := Py.Str (get_menu_entry_install_title (base o))]>
  (<["boot_timeout" := Py.Int (timeout o)]>
  (<["gfxmode" := Py.Str (gfxmode o)]>
  (<["failsafe_boot_options" :=
       Py.Str (Py.join " " ([cmdline_failsafe o] ++ install_boot_options o))]>
  (<["boot_options" :=
       Py.Str (Py.join " " ([cmdline o] ++ install_boot_options o))]>
  (<["initrd_file" := Py.Str initrd]>
  (<["kernel_file" := Py.Str kernel]>
  (<["default_boot" :=
       Py.Str (get_install_image_boot_default (base o) "isolinux")]>
   ∅))))))).

(** The [parameters] dict literal of [setup_live_image_config]. *)
Definition live_parameters (o : BootLoaderConfigIsoLinux)
    (kernel initrd : string) : gmap string Py.value :=
  <["title" := Py.Str (get_menu_entry_title (base o) true)]>
  (<["boot_timeout" := Py.Int (timeout o)]>
  (<["gfxmode" := Py.Str (gfxmode o)]>
  (<["failsafe_boot_options" :=
       Py.Str (Py.join " " ([cmdline_failsafe o] ++ live_boot_options o))]>
  (<["boot_options" :=
       Py.Str (Py.join " " ([cmdline o] ++ live_boot_options o))]>
  (<["initrd_file" := Py.Str initrd]>
  (<["kernel_file" := Py.Str kernel]>
  (<["default_boot" := Py.Str (get_menu_entry_title (base o) true)]>
   ∅))))))).

(** The map as it stands when the templates are substituted:
    [parameters['hypervisor'] = hypervisor] under multiboot. *)
Definition install_render_parameters (o : BootLoaderConfigIsoLinux)
    (hypervisor kernel initrd : string) : gmap string Py.value :=
  if multiboot o
  then <["hypervisor" := Py.Str hypervisor]> (install_parameters o kernel initrd)
  else install_parameters o kernel initrd.

Definition live_render_parameters (o : BootLoaderConfigIsoLinux)
    (hypervisor kernel initrd : string) : gmap string Py.value :=
  if multiboot o
  then <["hypervisor" := Py.Str hypervisor]> (live_parameters o kernel initrd)
  else live_parameters o kernel initrd.

Definition setup_install_image_config
    (mbrid hypervisor kernel initrd : string) : M unit :=
  (* mbrid parameter is not used *)
  log_info "Creating isolinux install config file from template" ;;
  o ← get_self;
  let parameters := install_render_parameters o hypervisor kernel initrd in
  template ←
    (if multiboot o then
       log_info "--> Using multiboot install template" ;;
       theme ← _have_theme;
       mret (get_multiboot_install_template (isolinux o)
               (failsafe_boot o) theme (terminal o))
     else
       log_info "--> Using install template" ;;
       theme ← _have_theme;
       mret (get_install_template (isolinux o)
               (failsafe_boot o) theme (terminal o)));
  try_except
    (c ← lift (substitute template parameters);
     set_config (Some c) ;;
     let template := get_install_message_template (isolinux o) in
     m ← lift (substitute template parameters);
     set_config_message (Some m))
    (fun e => raise (KiwiTemplateError (exn_name e +:+ ": " +:+ exn_format e))).

Definition setup_live_image_config
    (mbrid hypervisor kernel initrd : string) : M unit :=
  (* mbrid parameter is not used *)
  log_info "Creating isolinux live ISO config file from template" ;;
  o ← get_self;
  let parameters := live_render_parameters o hypervisor kernel initrd in
  template ←
    (if multiboot o then
       log_info "--> Using multiboot standard ISO template" ;;
       theme ← _have_theme;
       mret (get_multiboot_template (isolinux o)
               (failsafe_boot o) theme (terminal o) (mediacheck_boot o))
     else
       log_info "--> Using standard ISO template" ;;
       theme ← _have_theme;
       mret (get_template (isolinux o)
               (failsafe_boot o) theme (terminal o) (mediacheck_boot o)));
  try_except
    (c ← lift (substitute template parameters);
     set_config (Some c) ;;
     let template := get_message_template (isolinux o) in
     m ← lift (substitute template parameters);
     set_config_message (Some m))
    (fun e => raise (KiwiTemplateError (exn_name e +:+ ": " +:+ exn_format e))).

Definition syslinux_file_names : list string :=
  [ "isolinux.bin"; "ldlinux.c32"; "libcom32.c32"; "libutil.c32";
    "gfxboot.c32"; "gfxboot.com"; "menu.c32"; "chain.c32"; "mboot.c32" ].

Definition syslinux_dirs : list string :=
  [ "/usr/share/syslinux/"; "/usr/lib/syslinux/modules/bios/" ].

(** Lines 265-271: file names outside, candidate directories inside. *)
Definition copy_syslinux_files (lookup_path loader_data : string) : M unit :=
  for_each syslinux_file_names (fun syslinux_file_name =>
    for_each syslinux_dirs (fun syslinux_dir =>
      let syslinux_file :=
        Py.join "" [lookup_path; syslinux_dir; syslinux_file_name] in
      b ← os_path_exists syslinux_file;
      if b : bool then shutil_copy syslinux_file loader_data else mret tt)).

(** Lines 244-248: the staging directory is wiped and made anew. *)
Definition prepare_loader_data (lookup_path : string) : M string :=
  let loader_data := lookup_path +:+ "/image/loader/" in
  Path_wipe loader_data ;;
  Path_create loader_data ;;
  mret loader_data.

Definition _copy_loader_data_to_boot_directory (t : Tools)
    (lookup_path : option string) : M unit :=
  o ← get_self;
  let lookup_path :=
    if Py.truthy lookup_path then default "" lookup_path
    else root_dir (base o) in
  loader_data ← prepare_loader_data lookup_path;
  copy_syslinux_files lookup_path loader_data ;;
  let bash_command :=
    Py.join " "
      ["cp"; lookup_path +:+ "/boot/memtest*"; loader_data +:+ "/memtest"] in
  Command_run t ["bash"; "-c"; bash_command] false ;;
  (if Py.truthy (get_boot_theme (base o)) then
     let theme_path :=
       Py.join "" [lookup_path; "/etc/bootsplash/themes/";
                   default "" (get_boot_theme (base o))] in
     b ← os_path_exists (theme_path +:+ "/cdrom/gfxboot.cfg");
     (if b : bool then
        let bash_command :=
          Py.join " " ["cp"; theme_path +:+ "/cdrom/*"; loader_data] in
        Command_run t ["bash"; "-c"; bash_command] true ;;
        (* don't move down one menu entry the first time a F-key is used *)
        Command_run t
          ["gfxboot"; "--config-file"; loader_data +:+ "/gfxboot.cfg";
           "--change-config"; "install::autodown=0"] true
      else mret tt) ;;
     b ← os_path_exists (theme_path +:+ "/bootloader/message");
     if b : bool then
       Command_run t ["cp"; theme_path +:+ "/bootloader/message"; loader_data]
         true
     else mret tt
   else mret tt) ;;
  Path_create (_get_iso_boot_path o) ;;
  DataSync_sync_data t loader_data (_get_iso_boot_path o) ["-z"; "-a"].

Definition setup_install_boot_images (t : Tools) (mbrid : string)
    (lookup_path : option string) : M unit :=
  _copy_loader_data_to_boot_directory t lookup_path.

Definition setup_live_boot_images (t : Tools) (mbrid : string)
    (lookup_path : option string) : M unit :=
  setup_install_boot_images t mbrid lookup_path.

(** ** What the render routines select *)

(** [self._have_theme()] as a function of the state. *)
Definition have_theme (st : state) : bool :=
  bool_decide
    (is_Some (fs st !! (_get_iso_boot_path (self st) +:+ "/bootlogo"))).

(** The main template [setup_install_image_config] picks in a state. *)
Definition install_main_template (st : state) : Template :=
  let o := self st in
  if multiboot o
  then get_multiboot_install_template (isolinux o)
         (failsafe_boot o) (have_theme st) (terminal o)
  else get_install_template (isolinux o)
         (failsafe_boot o) (have_theme st) (terminal o).

(** The main template [setup_live_image_config] picks in a state. *)
Definition live_main_template (st : state) : Template :=
  let o := self st in
  if multiboot o
  then get_multiboot_template (isolinux o)
         (failsafe_boot o) (have_theme st) (terminal o) (mediacheck_boot o)
  else get_template (isolinux o)
         (failsafe_boot o) (have_theme st) (terminal o) (mediacheck_boot o).

(** The message carried by the [KiwiTemplateError] that wraps [e]. *)
Definition template_error (e : exn) : exn :=
  KiwiTemplateError (exn_name e +:+ ": " +:+ exn_format e).

(** What a render call that raised [e] and stopped in [st'] has done to
    the held texts, for the main template [main], the message template
    [msg] and the parameter map [p]: the message text is the old one; the
    config text is the old one when [main] failed, and the new rendering
    of [main] when only [msg] failed. *)
Definition failed_render (main msg : Template) (p : gmap string Py.value)
    (st : state) (e : exn) (st' : state) : Prop :=
  config_message (self st') = config_message (self st)
  ∧ match substitute main p with
    | Raise e0 =>
        e = template_error e0 ∧ config (self st') = config (self st)
    | Return c =>
        config (self st') = Some c
        ∧ ∃ e0, substitute msg p = Raise e0 ∧ e = template_error e0
    end.

(** A path that is not empty and does not end in a slash. *)
Definition plain_path (d : string) : Prop :=
  Py.rstrip_slash d = d ∧ d ≠ "".

(** ** What the copy loop leaves *)

(** A bare file name. *)
Definition good_name (n : string) : Prop :=
  Py.has_slash n = false ∧ n ≠ "".

(** One pass of the inner loop body when the copy goes through: the
    candidate [d]/[n], if it is a file of the file system [f0] the loop
    started in, lands in the staging directory under the name [n]. *)
Definition copy_step (lookup : string) (f0 : gmap string node)
    (n d : string) (f : gmap string node) : gmap string node :=
  match f0 !! (lookup +:+ d +:+ n) with
  | Some (File c) => <[(lookup +:+ "/image/loader/") +:+ n := File c]> f
  | _ => f
  end.

(** The inner loop for one file name, over the candidate directories in
    their order. *)
Definition stage_name (lookup : string) (f0 f : gmap string node)
    (n : string) : gmap string node :=
  fold_left (fun f d => copy_step lookup f0 n d f) syslinux_dirs f.

(** The outer loop over a list of file names. *)
Definition stage_all (lookup : string) (f0 : gmap string node)
    (ns : list string) (f : gmap string node) : gmap string node :=
  fold_left (stage_name lookup f0) ns f.

(** What holds of the file system all through the copy loop that started
    in [f0]: the staging directory is a directory, the candidates are as
    in [f0], and nothing in the staging directory is a directory. *)
Definition staging_inv (lookup : string) (f0 f : gmap string node) : Prop :=
  isdir f (lookup +:+ "/image/loader/") = true
  ∧ (∀ d n, d ∈ syslinux_dirs →
            f !! (lookup +:+ d +:+ n) = f0 !! (lookup +:+ d +:+ n))
  ∧ (∀ n, n ≠ "" → f !! ((lookup +:+ "/image/loader/") +:+ n) ≠ Some Directory).

(** ** What the external tools leave of the staged files *)

(** Lines 281-283: the directory of the boot theme below the lookup
    path. *)
Definition theme_directory (lookup : string) (theme : option string)
  : string :=
  Py.join "" [lookup; "/etc/bootsplash/themes/"; default "" theme].

(** The external commands [_copy_loader_data_to_boot_directory] can run
    for a lookup path and a boot theme (lines 273-304): the memtest copy
    always, the theme copy, the splash tool and the message copy under a
    theme. *)
Definition staging_commands (lookup : string) (theme : option string)
  : list (list string) :=
  let loader_data := lookup +:+ "/image/loader/" in
  let theme_path := theme_directory lookup theme in
  ["bash"; "-c";
   Py.join " "
     ["cp"; lookup +:+ "/boot/memtest*"; loader_data +:+ "/memtest"]]
  :: (if Py.truthy theme then
        [ ["bash"; "-c";
           Py.join " " ["cp"; theme_path +:+ "/cdrom/*"; loader_data]];
          ["gfxboot"; "--config-file"; loader_data +:+ "/gfxboot.cfg";
           "--change-config"; "install::autodown=0"];
          ["cp"; theme_path +:+ "/bootloader/message"; loader_data] ]
      else []).

(** From a file system of which [P] holds the action [m] leads to one of
    which [Q] holds, whether it returns or raises. *)
Definition leads {A} (P Q : gmap string node → Prop) (m : M A) : Prop :=
  ∀ st, P (fs st) → Q (fs (m st).2).

(** What is asked of the external tools for the entry [v] at the staged
    path [k] to outlive them. Each of the [commands], run on a file
    system that holds the entry and of which [guard] holds, leaves the
    entry and [guard] in place, whether it succeeds or fails; and the
    sync of [source] to [target] with the options of the method leaves
    the entry in place. Nothing is asked about other commands, or about
    file systems of which [guard] does not hold. *)
Definition tools_keep (t : Tools) (commands : list (list string))
    (source target : string) (guard : gmap string node → Prop)
    (k : string) (v : node) : Prop :=
  (∀ command f, command ∈ commands → guard f → f !! k = Some v →
     guard (execute t command f).2 ∧ (execute t command f).2 !! k = Some v)
  ∧ (∀ f, f !! k = Some v →
          (sync_data t source target ["-z"; "-a"] f).2 !! k = Some v).

(** ** What a render leaves *)

(** The object with the held texts replaced. *)
Definition with_texts (c m : option string) (o : BootLoaderConfigIsoLinux)
  : BootLoaderConfigIsoLinux :=
  {| base := base o; custom_args := custom_args o; arch := arch o;
     install_volid := install_volid o; volume_id := volume_id o;
     live_type := live_type o; live_boot_options := live_boot_options o;
     install_boot_options := install_boot_options o;
     terminal := terminal o; gfxmode := gfxmode o; timeout := timeout o;
     cmdline := cmdline o; cmdline_failsafe := cmdline_failsafe o;
     failsafe_boot := failsafe_boot o; mediacheck_boot := mediacheck_boot o;
     multiboot := multiboot o; isolinux := isolinux o;
     config := c; config_message := m |}.

(** The outcome and the state of a render that has logged its two lines
    ([st0] is the state then), for the main template [main], the message
    template [msg] and the parameter map [p]. *)
Definition rendered (main msg : Template) (p : gmap string Py.value)
    (st0 : state) : outcome unit * state :=
  let o := self st0 in
  match substitute main p with
  | Raise e => (Raise (template_error e), st0)
  | Return c =>
      match substitute msg p with
      | Raise e =>
          (Raise (template_error e),
           with_self (with_texts (Some c) (config_message o) o) st0)
      | Return m =>
          (Return tt, with_self (with_texts (Some c) (Some m) o) st0)
      end
  end.

(** The keys of the [parameters] dict literal of both render routines. *)
Definition standard_keys : list string :=
  [ "default_boot"; "kernel_file"; "initrd_file"; "boot_options";
    "failsafe_boot_options"; "gfxmode"; "boot_timeout"; "title" ].

(** A well-formed template all of whose placeholders are among [keys]. *)
Definition uses_only (keys : list string) (t : Template) : Prop :=
  Forall (fun seg =>
            match seg with
            | Lit _ => True
            | Named k => k ∈ keys
            | Invalid _ _ => False
            end) t.

(** What the inner loop leaves at the staged path of the name [n], over
    what was there: the file of the later candidate directory, else the
    file of the earlier one, else what was there. *)
Definition staged_choice (lookup : string) (f0 : gmap string node)
    (n : string) (before : option node) : option node :=
  match f0 !! (lookup +:+ "/usr/lib/syslinux/modules/bios/" +:+ n) with
  | Some (File c) => Some (File c)
  | _ =>
      match f0 !! (lookup +:+ "/usr/share/syslinux/" +:+ n) with
      | Some (File c) => Some (File c)
      | _ => before
      end
  end.

(** The error the copy loop raises on a candidate that is a directory
    of the file system [f0] it started in. *)
Definition candidate_is_directory (lookup : string) (f0 : gmap string node)
    (e : exn) : Prop :=
  ∃ d n, d ∈ syslinux_dirs
         ∧ e = IsADirectoryError (lookup +:+ d +:+ n)
         ∧ f0 !! (lookup +:+ d +:+ n) = Some Directory.

#[global] Instance node_eq_dec : EqDecision node.
Proof. solve_decision. Defined.

(** ** What [write] does twice *)

(** The two halves of [write] after its log line, for the object [o]. *)
Definition write_config (o : BootLoaderConfigIsoLinux) : M unit :=
  let config_dir := _get_iso_boot_path o in
  if Py.truthy (config o) then
    Path_create config_dir ;;
    open_write (config_dir +:+ "/isolinux.cfg") (default "" (config o))
  else mret tt.

Definition write_message (o : BootLoaderConfigIsoLinux) : M unit :=
  let config_dir := _get_iso_boot_path o in
  if Py.truthy (config_message o) then
    open_write (config_dir +:+ "/isolinux.msg")
      (default "" (config_message o))
  else mret tt.

(** The outcome of [m] and the file system it leaves depend on the file
    system alone. *)
Definition fs_only (m : M unit) : Prop :=
  ∀ s t, fs s = fs t → (m s).1 = (m t).1 ∧ fs (m s).2 = fs (m t).2.

(** [m] leaves the object as it is. *)
Definition keeps_self (m : M unit) : Prop :=
  ∀ s, self (m s).2 = self s.

(** ** A concrete build, used to run the methods *)

Module Demo.

Definition policy : Defaults := {|
  get_install_volume_id := "INSTALL1";
  get_volume_id := "LIVE123";
  get_default_live_iso_type := "overlay";
  get_live_iso_persistent_boot_options := fun filesystem =>
    "rd.live.overlay.persistent"
    :: match filesystem with
       | Some f => ["rd.live.overlay.cowfs=" +:+ f]
       | None => []
       end;
  get_failsafe_kernel_options := "ide=nodma apm=off noresume"
|}.

(** Main templates that render; the two message templates ask for the
    hypervisor, which only a multiboot build supplies. *)
Definition templates : BootLoaderTemplateIsoLinux := {|
  get_install_template := fun _ _ _ =>
    [Lit "default "; Named "default_boot"; Lit " timeout ";
     Named "boot_timeout"];
  get_multiboot_install_template := fun _ _ _ =>
    [Lit "mboot "; Named "hypervisor"];
  get_template := fun _ _ _ _ =>
    [Lit "append "; Named "boot_options"];
  get_multiboot_template := fun _ _ _ _ =>
    [Lit "mboot "; Named "hypervisor"; Lit " "; Named "no_such_key"];
  get_install_message_template := [Lit "Xen "; Named "hypervisor"];
  get_message_template := [Lit "Xen "; Named "hypervisor"]
|}.

Definition host (machine : string) : Host := {|
  platform_machine := machine;
  defaults := policy;
  new_BootLoaderTemplateIsoLinux := templates
|}.

Definition build (initrd_system : option string)
    (hybridpersistent : option bool) (seconds : Z) : BootLoaderConfigBase := {|
  root_dir := "/tmp/root";
  xml_state := {|
    build_type := {|
      get_volid := None;
      get_flags := None;
      get_hybridpersistent := hybridpersistent;
      get_hybridpersistent_filesystem := Some "ext4";
      get_bootloader_console := None;
      get_mediacheck := None
    |};
    get_initrd_system := initrd_system;
    is_xen_server := false
  |};
  get_gfxmode := fun _ => "800x600";
  get_boot_timeout_seconds := seconds;
  get_boot_cmdline := "splash quiet";
  failsafe_boot_entry_requested := false;
  get_install_image_boot_default := fun _ => "0";
  get_menu_entry_install_title := "Install";
  get_menu_entry_title := fun _ => "Live";
  get_boot_theme := None
|}.

(** The object [post_init] builds on x86_64 for a dracut build. *)
Definition object : BootLoaderConfigIsoLinux :=
  match post_init (host "x86_64") (build (Some "dracut") None 10) None with
  | Return o => o
  | Raise _ =>
      {| base := build None None 0; custom_args := None; arch := "";
         install_volid := ""; volume_id := ""; live_type := "";
         live_boot_options := []; install_boot_options := [];
         terminal := None; gfxmode := ""; timeout := 0; cmdline := "";
         cmdline_failsafe := ""; failsafe_boot := false;
         mediacheck_boot := None; multiboot := false;
         isolinux := templates; config := None; config_message := None |}
  end.

(** The same object holding the given texts, in a given file system. *)
Definition holding (c m : option string) (f : gmap string node) : state :=
  ((set_config c ;; set_config_message m)
     {| self := object; fs := f; log := [] |}).2.

(** Both candidate directories hold an isolinux.bin, with different
    contents; the general directory also holds a menu.c32. *)
Definition loader_sources : gmap string node :=
  <["/tmp/root/usr/share/syslinux/isolinux.bin" := File "general"]>
  (<["/tmp/root/usr/lib/syslinux/modules/bios/isolinux.bin" := File "bios"]>
  (<["/tmp/root/usr/share/syslinux/menu.c32" := File "menu"]> ∅)).

(** Tools that find nothing to do: every command fails and touches
    nothing, the sync succeeds and copies nothing. *)
Definition idle_tools : Tools := {|
  execute := fun _ f => (false, f);
  sync_data := fun _ _ _ f => (Return tt, f)
|}.

End Demo.

(** ** A second build, with templates that render *)

Module Stock.

(** Templates that name only keys of the parameter dict, but for the
    main live template, which asks for the hypervisor. *)
Definition templates : BootLoaderTemplateIsoLinux := {|
  get_install_template := fun _ _ _ =>
    [Lit "default "; Named "default_boot"; Lit " append ";
     Named "boot_options"];
  get_multiboot_install_template := fun _ _ _ =>
    [Lit "mboot "; Named "hypervisor"];
  get_template := fun _ _ _ _ =>
    [Lit "label "; Named "title"; Lit " xen "; Named "hypervisor"];
  get_multiboot_template := fun _ _ _ _ =>
    [Lit "mboot "; Named "hypervisor"];
  get_install_message_template := [Lit "Welcome to "; Named "title"];
  get_message_template := [Lit "Welcome to "; Named "title"]
|}.

Definition host : Host := {|
  platform_machine := "x86_64";
  defaults := Demo.policy;
  new_BootLoaderTemplateIsoLinux := templates
|}.

(** The object [post_init] builds with these templates. *)
Definition object : BootLoaderConfigIsoLinux :=
  match post_init host (Demo.build (Some "dracut") None 10) None with
  | Return o => o
  | Raise _ => Demo.object
  end.

(** The object, never rendered, in a given file system. *)
Definition fresh (f : gmap string node) : state :=
  {| self := object; fs := f; log := [] |}.

(** A file system where the general candidate directory holds a
    directory named like a loader file. *)
Definition broken_sources : gmap string node :=
  <["/tmp/root/usr/share/syslinux/ldlinux.c32" := Directory]>
    Demo.loader_sources.

End Stock.

(** ** A third build, whose live message template cannot render *)

Module Mixed.

(** Templates that name only keys of the parameter dict, but for the
    live message template, which also asks for the hypervisor. *)
Definition templates : BootLoaderTemplateIsoLinux := {|
  get_install_template := fun _ _ _ =>
    [Lit "default "; Named "default_boot"];
  get_multiboot_install_template := fun _ _ _ =>
    [Lit "mboot "; Named "hypervisor"];
  get_template := fun _ _ _ _ =>
    [Lit "label "; Named "title"; Lit " append "; Named "boot_options"];
  get_multiboot_template := fun _ _ _ _ =>
    [Lit "mboot "; Named "hypervisor"];
  get_install_message_template := [Lit "Welcome to "; Named "title"];
  get_message_template :=
    [Lit "Welcome to "; Named "title"; Lit " on "; Named "hypervisor"]
|}.

Definition host : Host := {|
  platform_machine := "x86_64";
  defaults := Demo.policy;
  new_BootLoaderTemplateIsoLinux := templates
|}.

(** The object [post_init] builds with these templates. *)
Definition object : BootLoaderConfigIsoLinux :=
  match post_init host (Demo.build (Some "dracut") None 10) None with
  | Return o => o
  | Raise _ => Demo.object
  end.

(** The object, never rendered, in a given file system. *)
Definition fresh (f : gmap string node) : state :=
  {| self := object; fs := f; log := [] |}.

End Mixed.

(** ** A build with a boot theme, and tools that copy it *)

Module Themed.

(** The build of [Demo], with the boot theme openSUSE. *)
Definition build : BootLoaderConfigBase :=
  let b := Demo.build (Some "dracut") None 10 in
  {| root_dir := root_dir b;
     xml_state := xml_state b;
     get_gfxmode := get_gfxmode b;
     get_boot_timeout_seconds := get_boot_timeout_seconds b;
     get_boot_cmdline := get_boot_cmdline b;
     failsafe_boot_entry_requested := failsafe_boot_entry_requested b;
     get_install_image_boot_default := get_install_image_boot_default b;
     get_menu_entry_install_title := get_menu_entry_install_title b;
     get_menu_entry_title := get_menu_entry_title b;
     get_boot_theme := Some "openSUSE" |}.

Definition object : BootLoaderConfigIsoLinux :=
  match post_init (Demo.host "x86_64") build None with
  | Return o => o
  | Raise _ => Demo.object
  end.

(** The object, never rendered, in a given file system. *)
Definition fresh (f : gmap string node) : state :=
  {| self := object; fs := f; log := [] |}.

(** A copy of one regular file, when it is there. *)
Definition copy_file (source target : string) (f : gmap string node)
  : gmap string node :=
  match f !! source with
  | Some (File c) => <[target := File c]> f
  | _ => f
  end.

(** The files named [names] of the directory [source], copied into the
    directory [target] (both written with their closing slash). *)
Definition copy_files (source target : string) (names : list string)
    (f : gmap string node) : gmap string node :=
  foldr (fun n g => copy_file (source +:+ n) (target +:+ n) g) f names.

(** Tools for a theme whose cdrom directory ships the files [shipped]:
    the theme copy copies them into the staging directory, the splash
    tool succeeds when its configuration is there, the message copy
    copies the message file, there is no memtest to copy, and the sync
    copies the loader files and the theme files to the boot directory. *)
Definition tools (shipped : list string) : Tools := {|
  execute := fun command f =>
    if bool_decide
         (command
          = ["bash"; "-c";
             "cp /tmp/root/etc/bootsplash/themes/openSUSE/cdrom/* "
             +:+ "/tmp/root/image/loader/"])
    then (true,
          copy_files "/tmp/root/etc/bootsplash/themes/openSUSE/cdrom/"
            "/tmp/root/image/loader/" shipped f)
    else if bool_decide
              (command
               = ["gfxboot"; "--config-file";
                  "/tmp/root/image/loader//gfxboot.cfg";
                  "--change-config"; "install::autodown=0"])
    then (bool_decide
            (is_Some (f !! "/tmp/root/image/loader/gfxboot.cfg")), f)
    else if bool_decide
              (command
               = ["cp";
                  "/tmp/root/etc/bootsplash/themes/openSUSE/bootloader/message";
                  "/tmp/root/image/loader/"])
    then (true,
          copy_files "/tmp/root/etc/bootsplash/themes/openSUSE/bootloader/"
            "/tmp/root/image/loader/" ["message"] f)
    else (false, f);
  sync_data := fun source target options f =>
    (Return tt,
     copy_files source (target +:+ "/")
       (syslinux_file_names ++ shipped ++ ["message"]) f)
|}.

(** The loader files of [Demo], a gfxboot.com in both candidate
    directories, and a theme with a splash configuration, a logo, a
    gfxboot.com of its own and a message. *)
Definition sources : gmap string node :=
  <["/tmp/root/etc/bootsplash/themes/openSUSE/cdrom/gfxboot.cfg"
    := File "theme cfg"]>
  (<["/tmp/root/etc/bootsplash/themes/openSUSE/cdrom/bootlogo"
     := File "theme logo"]>
  (<["/tmp/root/etc/bootsplash/themes/openSUSE/cdrom/gfxboot.com"
     := File "theme gfxboot"]>
  (<["/tmp/root/etc/bootsplash/themes/openSUSE/bootloader/message"
     := File "theme message"]>
  (<["/tmp/root/usr/share/syslinux/gfxboot.com" := File "general gfxboot"]>
  (<["/tmp/root/usr/lib/syslinux/modules/bios/gfxboot.com"
     := File "bios gfxboot"]>
   Demo.loader_sources))))).

(** A file system where the first candidate of the copy loop is a
    directory, and both candidate directories hold a menu.c32. *)
Definition broken_sources : gmap string node :=
  <["/tmp/root/usr/share/syslinux/isolinux.bin" := Directory]>
  (<["/tmp/root/usr/lib/syslinux/modules/bios/menu.c32"
     := File "bios menu"]>
   Demo.loader_sources).

End Themed.

(** * Properties *)

(** ** Construction: [post_init] *)

Section Construction.

Variable h : Host.
Variable b : BootLoaderConfigBase.
Variable custom : option (gmap string Py.value).

Lemma resolve_arch_cases (a : string) :
  (a = "x86_64" ∧ resolve_arch a = Return "x86_64")
  ∨ ((a = "i686" ∨ a = "i586") ∧ resolve_arch a = Return "ix86")
  ∨ (a ≠ "x86_64" ∧ a ≠ "i686" ∧ a ≠ "i586"
     ∧ resolve_arch a
       = Raise (KiwiBootLoaderIsoLinuxPlatformError
                  ("host architecture " +:+ a
                   +:+ " not supported for isolinux setup"))).
Proof.
  unfold resolve_arch.
  destruct (String.eqb_spec a "x86_64") as [->|H1]; [left; done|].
  destruct (String.eqb_spec a "i686") as [->|H2];
    [right; left; split; [by left | done]|].
  destruct (String.eqb_spec a "i586") as [->|H3];
    [right; left; split; [by right | done]|].
  right; right. done.
Qed.

Lemma post_init_inv (o : BootLoaderConfigIsoLinux) :
  post_init h b custom = Return o →
  ∃ a, resolve_arch (platform_machine h) = Return a
       ∧ arch o = a
       ∧ base o = b
       ∧ install_volid o
         = Py.or_ (get_volid (build_type (xml_state b)))
             (get_install_volume_id (defaults h))
       ∧ volume_id o
         = Py.or_ (get_volid (build_type (xml_state b)))
             (get_volume_id (defaults h))
       ∧ install_boot_options o
         = (if bool_decide (get_initrd_system (xml_state b) = Some "dracut")
            then ["loglevel=0";
                  "root=install:CDLABEL=" +:+ install_volid o]
            else ["loglevel=0"])
       ∧ live_boot_options o
         = (if Py.truthy_flag (get_hybridpersistent (build_type (xml_state b)))
            then ["root=live:CDLABEL=" +:+ volume_id o; "rd.live.image"]
                   ++ get_live_iso_persistent_boot_options (defaults h)
                        (get_hybridpersistent_filesystem
                           (build_type (xml_state b)))
            else ["root=live:CDLABEL=" +:+ volume_id o; "rd.live.image"])
       ∧ timeout o = (get_boot_timeout_seconds b * 10)%Z
       ∧ cmdline o = get_boot_cmdline b
       ∧ multiboot o = is_xen_server (xml_state b)
       ∧ config o = None
       ∧ config_message o = None.
Proof.
  unfold post_init.
  destruct (resolve_arch (platform_machine h)) as [a|e]; [|done].
  intros [= <-]. exists a. cbn.
  repeat split; try done; by repeat case_match.
Qed.

(** C4. Whatever the host architecture string is, construction has
    exactly three outcomes: "x86_64" resolves to the tag "x86_64",
    "i686" and "i586" resolve to "ix86", and every other string raises
    the platform error that names the architecture. *)
Theorem post_init_arch_mapping :
  let a := platform_machine h in
  (a = "x86_64"
   ∧ ∃ o, post_init h b custom = Return o ∧ arch o = "x86_64")
  ∨ ((a = "i686" ∨ a = "i586")
     ∧ ∃ o, post_init h b custom = Return o ∧ arch o = "ix86")
  ∨ (a ≠ "x86_64" ∧ a ≠ "i686" ∧ a ≠ "i586"
     ∧ post_init h b custom
       = Raise (KiwiBootLoaderIsoLinuxPlatformError
                  ("host architecture " +:+ a
                   +:+ " not supported for isolinux setup"))).
Proof.
  intros a. subst a.
  destruct (resolve_arch_cases (platform_machine h))
    as [[Ha Hr]|[[Ha Hr]|(H1 & H2 & H3 & Hr)]].
  - left. split; [done|]. unfold post_init. rewrite Hr. eauto.
  - right; left. split; [done|]. unfold post_init. rewrite Hr. eauto.
  - right; right. repeat split; try done. unfold post_init. by rewrite Hr.
Qed.

(** C5. After a successful construction the install boot options
    contain "loglevel=0", and they contain
    "root=install:CDLABEL=<install volume id>" exactly when the
    configured initrd system is "dracut". *)
Theorem install_boot_options_dracut (o : BootLoaderConfigIsoLinux) :
  post_init h b custom = Return o →
  "loglevel=0" ∈ install_boot_options o
  ∧ ("root=install:CDLABEL=" +:+ install_volid o ∈ install_boot_options o
     ↔ get_initrd_system (xml_state b) = Some "dracut").
Proof.
  intros (a & _ & _ & _ & _ & _ & Hi & _)%post_init_inv.
  rewrite Hi. case_bool_decide as Hd.
  - split; [set_solver|]. split; [done|]. intros _. set_solver.
  - split; [set_solver|]. split; [|done].
    intros Hin%list_elem_of_singleton. discriminate Hin.
Qed.

(** C7. After a successful construction the live boot options contain
    "root=live:CDLABEL=<volume id>" and "rd.live.image"; they are these
    two followed by the persistent-boot tokens of the configured
    filesystem when the hybrid-persistent flag is set, and exactly these
    two when it is not. *)
Theorem live_boot_options_persistent (o : BootLoaderConfigIsoLinux) :
  post_init h b custom = Return o →
  let bt := build_type (xml_state b) in
  let fixed := ["root=live:CDLABEL=" +:+ volume_id o; "rd.live.image"] in
  let tokens :=
    get_live_iso_persistent_boot_options (defaults h)
      (get_hybridpersistent_filesystem bt) in
  "root=live:CDLABEL=" +:+ volume_id o ∈ live_boot_options o
  ∧ "rd.live.image" ∈ live_boot_options o
  ∧ (get_hybridpersistent bt = Some true →
     live_boot_options o = fixed ++ tokens)
  ∧ (get_hybridpersistent bt ≠ Some true →
     live_boot_options o = fixed).
Proof.
  intros (a & _ & _ & _ & _ & _ & _ & Hl & _)%post_init_inv.
  cbv zeta. rewrite Hl.
  destruct (get_hybridpersistent (build_type (xml_state b))) as [[|]|];
    cbn [Py.truthy_flag]; repeat split; try done; set_solver.
Qed.

(** C8. For a configured boot timeout of s seconds, s not negative, the
    stored timeout is s * 10, and it is the boot_timeout entry of the
    parameter map of both render routines. *)
Theorem boot_timeout_tenths (o : BootLoaderConfigIsoLinux) (s : Z)
    (hypervisor kernel initrd : string) :
  post_init h b custom = Return o →
  get_boot_timeout_seconds b = s →
  (0 ≤ s)%Z →
  timeout o = (s * 10)%Z
  ∧ install_render_parameters o hypervisor kernel initrd !! "boot_timeout"
    = Some (Py.Int (s * 10))
  ∧ live_render_parameters o hypervisor kernel initrd !! "boot_timeout"
    = Some (Py.Int (s * 10)).
Proof.
  intros (a & _ & _ & _ & _ & _ & _ & _ & Ht & _)%post_init_inv <- _.
  split; [done|].
  unfold install_render_parameters, live_render_parameters,
    install_parameters, live_parameters.
  rewrite Ht. destruct (multiboot o); by simplify_map_eq.
Qed.

(** C3. With volume id "LIVE123", install volume id "INSTALL1", initrd
    system "dracut", no hybrid persistence, no multiboot, kernel "linux"
    and initrd "initrd", the boot_options parameter of the install render
    is the base cmdline followed by
    " loglevel=0 root=install:CDLABEL=INSTALL1". *)
Theorem install_boot_options_parameter (o : BootLoaderConfigIsoLinux)
    (hypervisor : string) :
  post_init h b custom = Return o →
  volume_id o = "LIVE123" →
  install_volid o = "INSTALL1" →
  get_initrd_system (xml_state b) = Some "dracut" →
  get_hybridpersistent (build_type (xml_state b)) = None →
  is_xen_server (xml_state b) = false →
  install_render_parameters o hypervisor "linux" "initrd" !! "boot_options"
  = Some (Py.Str (get_boot_cmdline b
                  +:+ " loglevel=0 root=install:CDLABEL=INSTALL1")).
Proof.
  intros (a & _ & _ & _ & _ & _ & Hi & _ & _ & Hc & Hm & _)%post_init_inv
    _ Hid Hd _ Hx.
  unfold install_render_parameters, install_parameters.
  rewrite Hm, Hx, Hi, Hc, Hid, Hd.
  rewrite bool_decide_eq_true_2 by done.
  by simplify_map_eq.
Qed.

End Construction.

(** An ARM host is turned away. *)
Example post_init_aarch64 :
  post_init (Demo.host "aarch64") (Demo.build (Some "dracut") None 10) None
  = Raise (KiwiBootLoaderIsoLinuxPlatformError
             "host architecture aarch64 not supported for isolinux setup").
Proof. reflexivity. Qed.

Lemma install_boot_options_dracut_witness :
  "loglevel=0" ∈ install_boot_options Demo.object
  ∧ ("root=install:CDLABEL=" +:+ install_volid Demo.object
       ∈ install_boot_options Demo.object
     ↔ Some "dracut" = Some "dracut").
Proof.
  apply (install_boot_options_dracut (Demo.host "x86_64")
           (Demo.build (Some "dracut") None 10) None Demo.object).
  reflexivity.
Defined.

Lemma live_boot_options_persistent_witness :
  ∃ o, post_init (Demo.host "i686") (Demo.build None (Some true) 3) None
       = Return o
       ∧ live_boot_options o
         = ["root=live:CDLABEL=LIVE123"; "rd.live.image";
            "rd.live.overlay.persistent"; "rd.live.overlay.cowfs=ext4"].
Proof.
  eexists. split; [reflexivity|].
  refine (proj1 (proj2 (proj2
    (live_boot_options_persistent (Demo.host "i686")
       (Demo.build None (Some true) 3) None _ _))) _); reflexivity.
Defined.

Lemma boot_timeout_tenths_witness :
  timeout Demo.object = 100%Z
  ∧ install_render_parameters Demo.object "xen.gz" "linux" "initrd"
      !! "boot_timeout" = Some (Py.Int 100)
  ∧ live_render_parameters Demo.object "xen.gz" "linux" "initrd"
      !! "boot_timeout" = Some (Py.Int 100).
Proof.
  apply (boot_timeout_tenths (Demo.host "x86_64")
           (Demo.build (Some "dracut") None 10) None Demo.object 10%Z
           "xen.gz" "linux" "initrd"); [reflexivity | reflexivity | lia].
Defined.

Lemma install_boot_options_parameter_witness :
  install_render_parameters Demo.object "xen.gz" "linux" "initrd"
    !! "boot_options"
  = Some (Py.Str "splash quiet loglevel=0 root=install:CDLABEL=INSTALL1").
Proof.
  apply (install_boot_options_parameter (Demo.host "x86_64")
           (Demo.build (Some "dracut") None 10) None Demo.object "xen.gz");
    reflexivity.
Defined.

(** ** Rendering: [setup_install_image_config], [setup_live_image_config] *)

(** Runs a render routine symbolically: the monad is unfolded, the
    parameter map and the substitution are kept folded, and every branch
    the routine takes is split. *)
Ltac run_render :=
  unfold setup_install_image_config, setup_live_image_config, failed_render,
    install_main_template, live_main_template, have_theme, _have_theme,
    try_except, lift, raise, log_info, get_self, os_path_exists, set_config,
    set_config_message, with_self, mbind, M_bind, mret, M_ret;
  cbn -[install_render_parameters live_render_parameters substitute
        _get_iso_boot_path];
  repeat (first [case_bool_decide | case_match];
          cbn -[install_render_parameters live_render_parameters substitute
                _get_iso_boot_path] in *).

(** Runs a render routine against [rendered], branch by branch. *)
Ltac run_rendered :=
  unfold setup_install_image_config, setup_live_image_config, rendered,
    install_main_template, live_main_template, have_theme, _have_theme,
    try_except, lift, raise, log_info, get_self, os_path_exists, set_config,
    set_config_message, with_self, with_texts, template_error,
    mbind, M_bind, mret, M_ret;
  cbn -[install_render_parameters live_render_parameters substitute
        _get_iso_boot_path];
  match goal with
  | |- context [multiboot (self ?st)] =>
      let Hm := fresh "Hm" in
      destruct (multiboot (self st)) eqn:Hm;
      cbn -[install_render_parameters live_render_parameters substitute
            _get_iso_boot_path];
      case_bool_decide;
      cbn -[install_render_parameters live_render_parameters substitute
            _get_iso_boot_path];
      repeat (match goal with
              | |- context [substitute ?t ?p] => destruct (substitute t p)
              end;
              cbn -[install_render_parameters live_render_parameters
                    substitute _get_iso_boot_path]);
      by rewrite ?Hm
  end.

Lemma setup_install_image_config_run
    (mbrid hypervisor kernel initrd : string) (st : state) :
  setup_install_image_config mbrid hypervisor kernel initrd st
  = rendered (install_main_template st)
      (get_install_message_template (isolinux (self st)))
      (install_render_parameters (self st) hypervisor kernel initrd)
      {| self := self st; fs := fs st;
         log := (log st
                 ++ ["Creating isolinux install config file from template"])
                ++ [if multiboot (self st)
                    then "--> Using multiboot install template"
                    else "--> Using install template"] |}.
Proof. run_rendered. Qed.

Lemma setup_live_image_config_run
    (mbrid hypervisor kernel initrd : string) (st : state) :
  setup_live_image_config mbrid hypervisor kernel initrd st
  = rendered (live_main_template st)
      (get_message_template (isolinux (self st)))
      (live_render_parameters (self st) hypervisor kernel initrd)
      {| self := self st; fs := fs st;
         log := (log st
                 ++ ["Creating isolinux live ISO config file from template"])
                ++ [if multiboot (self st)
                    then "--> Using multiboot standard ISO template"
                    else "--> Using standard ISO template"] |}.
Proof. run_rendered. Qed.

Section Rendering.

Variables mbrid hypervisor kernel initrd : string.
Variable st : state.

Lemma setup_install_image_config_raise (e : exn) (st' : state) :
  setup_install_image_config mbrid hypervisor kernel initrd st
  = (Raise e, st') →
  failed_render (install_main_template st)
    (get_install_message_template (isolinux (self st)))
    (install_render_parameters (self st) hypervisor kernel initrd)
    st e st'.
Proof. run_render; intros; simplify_eq/=; unfold template_error; naive_solver congruence. Qed.

Lemma setup_live_image_config_raise (e : exn) (st' : state) :
  setup_live_image_config mbrid hypervisor kernel initrd st
  = (Raise e, st') →
  failed_render (live_main_template st)
    (get_message_template (isolinux (self st)))
    (live_render_parameters (self st) hypervisor kernel initrd)
    st e st'.
Proof. run_render; intros; simplify_eq/=; unfold template_error; naive_solver congruence. Qed.

(** C1, as the code has it. A render call whose template substitution
    fails raises a template error that carries the class name and the
    message of the substitution error, and leaves the held message text
    as it was. When the main template is the one whose substitution
    fails, the held config text is as it was too; when the main template
    renders and the message template fails, the held config text is the
    new rendering of the main template. A render call raises in no other
    way. This holds of both render routines. *)
Theorem failed_render_held_texts :
  let o := self st in
  let ip := install_render_parameters o hypervisor kernel initrd in
  let lp := live_render_parameters o hypervisor kernel initrd in
  let imsg := get_install_message_template (isolinux o) in
  let lmsg := get_message_template (isolinux o) in
  let ri := setup_install_image_config mbrid hypervisor kernel initrd st in
  let rl := setup_live_image_config mbrid hypervisor kernel initrd st in
  ((∀ e0, substitute (install_main_template st) ip = Raise e0 →
          ri.1 = Raise (template_error e0)
          ∧ config (self ri.2) = config o
          ∧ config_message (self ri.2) = config_message o)
   ∧ (∀ c e0, substitute (install_main_template st) ip = Return c →
              substitute imsg ip = Raise e0 →
              ri.1 = Raise (template_error e0)
              ∧ config (self ri.2) = Some c
              ∧ config_message (self ri.2) = config_message o)
   ∧ (∀ e st', ri = (Raise e, st') →
               failed_render (install_main_template st) imsg ip st e st'))
  ∧ ((∀ e0, substitute (live_main_template st) lp = Raise e0 →
            rl.1 = Raise (template_error e0)
            ∧ config (self rl.2) = config o
            ∧ config_message (self rl.2) = config_message o)
     ∧ (∀ c e0, substitute (live_main_template st) lp = Return c →
                substitute lmsg lp = Raise e0 →
                rl.1 = Raise (template_error e0)
                ∧ config (self rl.2) = Some c
                ∧ config_message (self rl.2) = config_message o)
     ∧ (∀ e st', rl = (Raise e, st') →
                 failed_render (live_main_template st) lmsg lp st e st')).
Proof.
  cbv zeta. split.
  - split; [|split].
    + intros e0 H. rewrite setup_install_image_config_run. unfold rendered.
      by rewrite H.
    + intros c e0 Hc Hm. rewrite setup_install_image_config_run.
      unfold rendered. by rewrite Hc, Hm.
    + apply setup_install_image_config_raise.
  - split; [|split].
    + intros e0 H. rewrite setup_live_image_config_run. unfold rendered.
      by rewrite H.
    + intros c e0 Hc Hm. rewrite setup_live_image_config_run.
      unfold rendered. by rewrite Hc, Hm.
    + apply setup_live_image_config_raise.
Qed.

(** C10. The state a render routine leaves, and so the held config and
    message texts, and its outcome are the same for any two values of
    the mbrid argument. *)
Theorem render_independent_of_mbrid (mbrid' : string) :
  setup_install_image_config mbrid hypervisor kernel initrd st
  = setup_install_image_config mbrid' hypervisor kernel initrd st
  ∧ setup_live_image_config mbrid hypervisor kernel initrd st
    = setup_live_image_config mbrid' hypervisor kernel initrd st.
Proof. split; reflexivity. Qed.

End Rendering.

(** C1 as stated fails. A build without multiboot renders its install
    configuration: both templates substitute, and the object holds the
    two texts. The live configuration is rendered next on the same
    object: the main template substitutes and is stored, and only then
    the message template fails, for it asks for the hypervisor. The call
    raises, and the config text the first render left is gone. *)
Lemma failed_render_overwrites_config :
  let st0 := Mixed.fresh ∅ in
  let r1 := setup_install_image_config "0xffffffff" "xen.gz" "linux" "initrd"
              st0 in
  let r2 := setup_live_image_config "0xffffffff" "xen.gz" "linux" "initrd"
              r1.2 in
  r1.1 = Return tt
  ∧ config (self r1.2) = Some "default 0"
  ∧ config_message (self r1.2) = Some "Welcome to Install"
  ∧ r2.1 = Raise (KiwiTemplateError "KeyError: 'hypervisor'")
  ∧ config (self r2.2)
    = Some ("label Live append splash quiet root=live:CDLABEL=LIVE123 "
            +:+ "rd.live.image")
  ∧ config_message (self r2.2) = Some "Welcome to Install"
  ∧ config (self r2.2) ≠ config (self r1.2).
Proof. vm_compute. repeat split; discriminate. Qed.

Lemma failed_render_held_texts_witness :
  let st := Demo.holding (Some "old config") (Some "old message") ∅ in
  let r := setup_install_image_config "0xffffffff" "xen.gz" "linux" "initrd"
             st in
  r.1 = Raise (template_error (KeyError "hypervisor"))
  ∧ config (self r.2) = Some "default 0 timeout 100"
  ∧ config_message (self r.2) = config_message (self st).
Proof.
  intros st r.
  apply (proj1 (proj2 (proj1 (failed_render_held_texts
                  "0xffffffff" "xen.gz" "linux" "initrd" st)))
           "default 0 timeout 100" (KeyError "hypervisor"));
    vm_compute; reflexivity.
Defined.

(** ** Paths as strings *)

Section Paths.

Lemma append_cons (c : ascii) (s t : string) :
  String c s +:+ t = String c (s +:+ t).
Proof. reflexivity. Qed.

Lemma append_nil_l (t : string) : "" +:+ t = t.
Proof. reflexivity. Qed.

Lemma append_nil_r (s : string) : s +:+ "" = s.
Proof.
  induction s as [|c s IH]; [done|]. rewrite append_cons. by rewrite IH.
Qed.

Lemma append_assoc (s t u : string) : (s +:+ t) +:+ u = s +:+ t +:+ u.
Proof.
  induction s as [|c s IH]; [done|]. rewrite !append_cons. by rewrite IH.
Qed.

Lemma append_inv_head (s t u : string) : s +:+ t = s +:+ u → t = u.
Proof.
  induction s as [|c s IH]; [done|]. rewrite !append_cons.
  intros [= H]; auto.
Qed.

Lemma append_ne_self (s t : string) : t ≠ "" → s +:+ t ≠ s.
Proof.
  intros Ht. induction s as [|c s IH]; [done|]. rewrite append_cons.
  intros [= H]; auto.
Qed.

Lemma append_not_empty (s t : string) : t ≠ "" → s +:+ t ≠ "".
Proof. destruct s; [done|]. rewrite append_cons. discriminate. Qed.

Lemma prefix_append (s t : string) : String.prefix s (s +:+ t) = true.
Proof.
  induction s as [|c s IH]; [by destruct t|].
  rewrite append_cons. simpl.
  destruct (ascii_dec c c); [done | congruence].
Qed.

Lemma prefix_refl (s : string) : String.prefix s s = true.
Proof. rewrite <- (append_nil_r s) at 2. apply prefix_append. Qed.

Lemma prefix_append_head (s t u : string) :
  String.prefix (s +:+ t) (s +:+ u) = String.prefix t u.
Proof.
  induction s as [|c s IH]; [done|].
  rewrite !append_cons. simpl.
  destruct (ascii_dec c c); [done | congruence].
Qed.

Lemma has_slash_append_r (s t : string) :
  Py.has_slash t = true → Py.has_slash (s +:+ t) = true.
Proof.
  unfold Py.has_slash. intros Ht.
  induction s as [|c s IH]; [done|].
  rewrite append_cons. simpl. rewrite IH. apply orb_true_r.
Qed.

Lemma upto_last_slash_append (s n : string) :
  Py.has_slash n = false →
  Py.upto_last_slash (s +:+ String "/" n) = s +:+ "/".
Proof.
  intros Hn. induction s as [|c s IH].
  - rewrite !append_nil_l. simpl. by rewrite Hn.
  - rewrite !append_cons. simpl.
    rewrite has_slash_append_r by done. by rewrite IH.
Qed.

Lemma basename_append (s t : string) :
  Py.has_slash t = true → Py.basename (s +:+ t) = Py.basename t.
Proof.
  intros Ht. induction s as [|c s IH]; [done|].
  rewrite append_cons. simpl.
  by rewrite has_slash_append_r.
Qed.

Lemma all_slash_rstrip (s : string) :
  Py.all_slash s = true → Py.rstrip_slash s = "".
Proof.
  induction s as [|c s IH]; simpl; [done|].
  intros [Hc Hs]%andb_true_iff. by rewrite IH, Hc.
Qed.

Lemma all_slash_append (s t : string) :
  Py.all_slash (s +:+ t) = Py.all_slash s && Py.all_slash t.
Proof.
  induction s as [|c s IH]; [done|].
  rewrite append_cons. simpl. by rewrite IH, andb_assoc.
Qed.

Lemma plain_path_append (s t : string) : plain_path t → plain_path (s +:+ t).
Proof.
  intros [Ht Hne]. split; [|by apply append_not_empty].
  induction s as [|c s IH]; [done|].
  rewrite append_cons. simpl.
  rewrite IH. destruct (s +:+ t) eqn:E; [|done].
  by apply append_not_empty in E.
Qed.

Lemma rstrip_slash_append_slash (d : string) :
  Py.rstrip_slash d = d → Py.rstrip_slash (d +:+ "/") = d.
Proof.
  induction d as [|c d IH]; [done|].
  rewrite append_cons. simpl.
  destruct (Py.rstrip_slash d) as [|c' r'] eqn:E.
  - destruct (Ascii.eqb c "/"); [done|]. intros [= <-]. done.
  - intros [= Hd]. rewrite IH by done. by rewrite <- Hd.
Qed.

Lemma dirname_plain (d n : string) :
  plain_path d → Py.has_slash n = false →
  Py.dirname (d +:+ String "/" n) = d.
Proof.
  intros [Hd Hne] Hn. unfold Py.dirname.
  rewrite upto_last_slash_append by done.
  rewrite all_slash_append.
  destruct (Py.all_slash d) eqn:E.
  - apply all_slash_rstrip in E. congruence.
  - simpl. by apply rstrip_slash_append_slash.
Qed.

Lemma iso_boot_path_plain (o : BootLoaderConfigIsoLinux) :
  plain_path (_get_iso_boot_path o).
Proof.
  unfold _get_iso_boot_path.
  do 3 apply plain_path_append. by split.
Qed.

End Paths.

(** ** Writing: [write] *)

Section Writer.

Lemma isdir_insert_file (f : gmap string node) (p q c : string) :
  isdir (<[p := File c]> f) q = if decide (p = q) then false else isdir f q.
Proof.
  unfold isdir. rewrite lookup_insert. by case_decide.
Qed.

Lemma isdir_insert_dir (f : gmap string node) (p q : string) :
  isdir (<[p := Directory]> f) q = if decide (p = q) then true else isdir f q.
Proof.
  unfold isdir. rewrite lookup_insert. by case_decide.
Qed.

Lemma open_write_ok (path c : string) (st : state) :
  isdir (fs st) path = false →
  isdir (fs st) (Py.dirname path) = true →
  open_write path c st
  = (Return tt, with_fs (<[path := File c]> (fs st)) st).
Proof.
  intros Hp Hd. unfold open_write. rewrite Hp, Hd.
  by rewrite orb_true_r.
Qed.

Lemma open_write_missing (path c : string) (st : state) :
  isdir (fs st) path = false →
  Py.dirname path ≠ "" →
  isdir (fs st) (Py.dirname path) = false →
  open_write path c st = (Raise (FileNotFoundError path), st).
Proof.
  intros Hp Hne Hd. unfold open_write. rewrite Hp, Hd.
  by destruct (String.eqb_spec (Py.dirname path) "").
Qed.

Variable st : state.

(** C2, as the code has it. Take a file system in which neither target
    path is a directory and the boot path is not a regular file. The
    config file holds the config text after [write] when that text is
    neither null nor empty, and is untouched otherwise: an empty string
    creates no file. The same holds for the message file when the boot
    directory is there by then, already present or made for the config
    file; without it a message text that is neither null nor empty makes
    [write] raise, and a null or empty one is skipped. *)
Theorem write_files :
  let o := self st in
  let dir := _get_iso_boot_path o in
  let cfg := dir +:+ "/isolinux.cfg" in
  let msg := dir +:+ "/isolinux.msg" in
  isdir (fs st) cfg = false →
  isdir (fs st) msg = false →
  (∀ c, fs st !! dir ≠ Some (File c)) →
  let r := write st in
  fs r.2 !! cfg
  = (if Py.truthy (config o) then File <$> config o else fs st !! cfg)
  ∧ (if Py.truthy (config_message o) then
       if isdir (fs st) dir || Py.truthy (config o)
       then r.1 = Return tt ∧ fs r.2 !! msg = File <$> config_message o
       else r.1 = Raise (FileNotFoundError msg)
            ∧ fs r.2 !! msg = fs st !! msg
     else r.1 = Return tt ∧ fs r.2 !! msg = fs st !! msg).
Proof.
  intros o dir cfg msg Hcfg Hmsg Hdir r.
  pose proof (iso_boot_path_plain o) as Hplain.
  assert (Py.dirname cfg = dir) as Hdc by (by apply dirname_plain).
  assert (Py.dirname msg = dir) as Hdm by (by apply dirname_plain).
  assert (cfg ≠ msg) as Hcm by (intros H%append_inv_head; discriminate).
  assert (dir ≠ cfg) as Hdcfg
    by (intros H; symmetry in H; by apply append_ne_self in H).
  assert (dir ≠ msg) as Hdmsg
    by (intros H; symmetry in H; by apply append_ne_self in H).
  assert (dir ≠ "") as Hne by apply Hplain.
  subst r. unfold write, log_info, get_self, Path_create,
    mbind, M_bind, mret, M_ret.
  cbn -[_get_iso_boot_path open_write Py.truthy].
  fold o dir cfg msg.
  assert (isdir (fs st) dir = true ∨ fs st !! dir = None) as Hd.
  { unfold isdir. destruct (fs st !! dir) as [[c|]|] eqn:E; auto.
    by destruct (Hdir c). }
  destruct (Py.truthy (config o)) eqn:Hc.
  - destruct (config o) as [c|] eqn:Hcc; [|done].
    rewrite orb_true_r. cbn [default from_option id fmap option_fmap option_map].
    set (st1 := {| self := o; fs := fs st; log := _ |}).
    assert (∃ f1, (match fs st1 !! dir with
                   | Some _ => (Return (), st1)
                   | None => (Return (),
                              with_fs (<[dir:=Directory]> (fs st1)) st1)
                   end) = (Return (), with_fs f1 st1)
                  ∧ isdir f1 dir = true ∧ isdir f1 cfg = false
                  ∧ isdir f1 msg = false ∧ f1 !! msg = fs st !! msg)
      as (f1 & -> & Hf1d & Hf1c & Hf1m & Hf1l).
    { subst st1. cbn [fs]. destruct Hd as [Hd|Hd].
      - exists (fs st). unfold isdir in Hd.
        destruct (fs st !! dir) eqn:E; [|done].
        repeat split; try done. unfold isdir. by rewrite E.
      - exists (<[dir:=Directory]> (fs st)). rewrite Hd.
        rewrite !isdir_insert_dir, !decide_True, !decide_False by done.
        rewrite lookup_insert_ne by done. done. }
    rewrite open_write_ok by (cbn [fs with_fs]; by rewrite ?Hdc).
    cbn [fs with_fs self].
    destruct (Py.truthy (config_message o)) eqn:Hm.
    + destruct (config_message o) as [m|] eqn:Hmm; [|done].
      cbn [default from_option id fmap option_fmap option_map].
      rewrite open_write_ok.
      * cbn [fs with_fs snd fst id].
        rewrite lookup_insert_ne, !lookup_insert_eq by done. done.
      * cbn [fs with_fs]. by rewrite isdir_insert_file, decide_False.
      * cbn [fs with_fs].
        rewrite Hdm, isdir_insert_file, decide_False by done.
        done.
    + cbn [fs with_fs snd fst id]. rewrite lookup_insert_eq.
      by rewrite lookup_insert_ne.
  - rewrite orb_false_r. cbn [fs with_fs snd fst id].
    destruct (Py.truthy (config_message o)) eqn:Hm.
    + destruct (config_message o) as [m|] eqn:Hmm; [|done].
      cbn [default from_option id fmap option_fmap option_map].
      destruct (isdir (fs st) dir) eqn:Hdd.
      * rewrite open_write_ok by (cbn [fs]; by rewrite ?Hdm).
        cbn [fs with_fs snd fst id].
        by rewrite lookup_insert_ne, lookup_insert_eq.
      * rewrite open_write_missing by (cbn [fs]; by rewrite ?Hdm).
        done.
    + done.
Qed.

End Writer.

(** C2 as stated fails: held texts that are the empty string are not
    null, yet [write] creates neither file. *)
Lemma write_skips_empty_string :
  let st := Demo.holding (Some "") (Some "") ∅ in
  let r := write st in
  config (self st) = Some ""
  ∧ config_message (self st) = Some ""
  ∧ r.1 = Return tt
  ∧ fs r.2 !! "/tmp/root/boot/x86_64/loader/isolinux.cfg" = None
  ∧ fs r.2 !! "/tmp/root/boot/x86_64/loader/isolinux.msg" = None
  ∧ fs r.2 = ∅.
Proof. vm_compute. repeat split. Qed.

Lemma write_files_witness :
  let st := Demo.holding (Some "default 0") (Some "Welcome") ∅ in
  let r := write st in
  fs r.2 !! "/tmp/root/boot/x86_64/loader/isolinux.cfg"
  = Some (File "default 0")
  ∧ r.1 = Return tt
  ∧ fs r.2 !! "/tmp/root/boot/x86_64/loader/isolinux.msg"
    = Some (File "Welcome").
Proof.
  intros st r.
  refine (write_files st _ _ _); [reflexivity | reflexivity |].
  intros c. vm_compute. discriminate.
Defined.

(** Without the boot directory, and with no config text to make it for,
    a held message text cannot be written. *)
Example write_message_without_directory :
  let st := Demo.holding None (Some "Welcome") ∅ in
  let r := write st in
  r.1 = Raise (FileNotFoundError "/tmp/root/boot/x86_64/loader/isolinux.msg")
  ∧ fs r.2 = ∅.
Proof. vm_compute. repeat split. Qed.

(** ** Staging: the loader files *)

Section Staging.

Variable lookup : string.

Lemma join3 (a b c : string) : Py.join "" [a; b; c] = a +:+ b +:+ c.
Proof. reflexivity. Qed.

Lemma basename_file (s n : string) :
  Py.has_slash n = false → Py.basename (s +:+ String "/" n) = n.
Proof.
  intros Hn. rewrite basename_append by done. simpl. by rewrite Hn.
Qed.

Lemma syslinux_dirs_cases (d : string) :
  d ∈ syslinux_dirs →
  d = "/usr/share/syslinux/" ∨ d = "/usr/lib/syslinux/modules/bios/".
Proof.
  unfold syslinux_dirs. intros H.
  repeat (apply elem_of_cons in H as [->|H]; [auto|]).
  by apply elem_of_nil in H.
Qed.

Lemma source_basename (d n : string) :
  d ∈ syslinux_dirs → Py.has_slash n = false →
  Py.basename (lookup +:+ d +:+ n) = n.
Proof.
  intros [-> | ->]%syslinux_dirs_cases Hn.
  - change (lookup +:+ "/usr/share/syslinux/" +:+ n)
      with (lookup +:+ "/usr/share/syslinux" +:+ String "/" n).
    rewrite <- append_assoc. by apply basename_file.
  - change (lookup +:+ "/usr/lib/syslinux/modules/bios/" +:+ n)
      with (lookup +:+ "/usr/lib/syslinux/modules/bios" +:+ String "/" n).
    rewrite <- append_assoc. by apply basename_file.
Qed.

Lemma loader_data_join (n : string) :
  os_path_join (lookup +:+ "/image/loader/") n
  = (lookup +:+ "/image/loader/") +:+ n.
Proof.
  unfold os_path_join.
  change (lookup +:+ "/image/loader/")
    with (lookup +:+ "/image/loader" +:+ String "/" "").
  rewrite <- append_assoc, basename_file by done.
  by rewrite orb_true_r.
Qed.

Lemma source_not_staged (d n n' : string) :
  d ∈ syslinux_dirs →
  lookup +:+ d +:+ n ≠ (lookup +:+ "/image/loader/") +:+ n'.
Proof.
  rewrite append_assoc.
  intros [-> | ->]%syslinux_dirs_cases H%append_inv_head; discriminate H.
Qed.

Lemma source_not_loader_data (d n : string) :
  d ∈ syslinux_dirs →
  lookup +:+ d +:+ n ≠ lookup +:+ "/image/loader/".
Proof.
  intros [-> | ->]%syslinux_dirs_cases H%append_inv_head; discriminate H.
Qed.

Lemma source_outside_loader_data (d n : string) :
  d ∈ syslinux_dirs →
  String.prefix (lookup +:+ "/image/loader/") (lookup +:+ d +:+ n) = false.
Proof.
  rewrite prefix_append_head.
  by intros [-> | ->]%syslinux_dirs_cases.
Qed.

Section Loop.

Variable f0 : gmap string node.

Lemma copy_body_run (st : state) (n d : string) :
  staging_inv lookup f0 (fs st) →
  good_name n →
  d ∈ syslinux_dirs →
  f0 !! (lookup +:+ d +:+ n) ≠ Some Directory →
  ∃ st',
    (b ← os_path_exists (Py.join "" [lookup; d; n]);
     if b : bool
     then shutil_copy (Py.join "" [lookup; d; n])
            (lookup +:+ "/image/loader/")
     else mret tt) st = (Return tt, st')
    ∧ fs st' = copy_step lookup f0 n d (fs st).
Proof.
  intros (Hld & Hsrc & Hstaged) [Hslash Hne] Hd Hnodir.
  rewrite join3. unfold copy_step, os_path_exists, shutil_copy,
    mbind, M_bind, mret, M_ret.
  rewrite <- (Hsrc d n Hd) in *.
  destruct (fs st !! (lookup +:+ d +:+ n)) as [[c|]|] eqn:E; [| done |].
  - rewrite bool_decide_eq_true_2 by eauto.
    rewrite Hld, source_basename, loader_data_join by done.
    destruct (String.eqb_spec (lookup +:+ d +:+ n)
                ((lookup +:+ "/image/loader/") +:+ n)) as [Heq|_];
      [by apply source_not_staged in Heq|].
    rewrite E. unfold isdir.
    specialize (Hstaged n Hne).
    destruct (fs st !! ((lookup +:+ "/image/loader/") +:+ n))
      as [[?|]|]; [| done |]; eauto.
  - rewrite bool_decide_eq_false_2 by (by intros [? ?]). eauto.
Qed.

Lemma staging_inv_copy_step (f : gmap string node) (n d : string) :
  staging_inv lookup f0 f → good_name n →
  staging_inv lookup f0 (copy_step lookup f0 n d f).
Proof.
  intros (Hld & Hsrc & Hstaged) [Hslash Hne]. unfold copy_step.
  destruct (f0 !! (lookup +:+ d +:+ n)) as [[c|]|]; try done.
  split; [|split].
  - rewrite isdir_insert_file, decide_False; [done|].
    by apply append_ne_self.
  - intros d' n' Hd'. rewrite lookup_insert_ne; [by apply Hsrc|].
    intros H. symmetry in H. by apply source_not_staged in H.
  - intros n' Hn'. rewrite lookup_insert. case_decide; [done|].
    by apply Hstaged.
Qed.

(** A loop whose body goes through at every element, and there acts
    on the file system as [step], acts as the fold of [step]. *)
Lemma for_each_fold {A} (P : gmap string node → Prop)
    (step : gmap string node → A → gmap string node)
    (body : A → M unit) (l : list A) (st : state) :
  (∀ f x, x ∈ l → P f → P (step f x)) →
  (∀ s x, x ∈ l → P (fs s) →
          ∃ s', body x s = (Return tt, s') ∧ fs s' = step (fs s) x) →
  P (fs st) →
  ∃ st', for_each l body st = (Return tt, st')
         ∧ fs st' = fold_left step l (fs st)
         ∧ P (fs st').
Proof.
  revert st. induction l as [|x l IH]; intros st HP Hbody Hst.
  - exists st. by simpl.
  - destruct (Hbody st x) as (s1 & Hrun & Hfs);
      [by left | done |].
    destruct (IH s1) as (st' & Hrun' & Hfs' & HP').
    + intros f y Hy. apply HP. by right.
    + intros s y Hy. apply Hbody. by right.
    + rewrite Hfs. apply HP; [by left | done].
    + exists st'. simpl. unfold mbind, M_bind. rewrite Hrun.
      rewrite <- Hfs. auto.
Qed.

Lemma staging_inv_stage_name (f : gmap string node) (n : string) :
  staging_inv lookup f0 f → good_name n →
  staging_inv lookup f0 (stage_name lookup f0 f n).
Proof.
  intros Hinv Hn. unfold stage_name, syslinux_dirs. simpl.
  apply staging_inv_copy_step; [apply staging_inv_copy_step|]; done.
Qed.

Lemma copy_loop_run (ns : list string) (st : state) :
  Forall good_name ns →
  (∀ d n, d ∈ syslinux_dirs → n ∈ ns →
          f0 !! (lookup +:+ d +:+ n) ≠ Some Directory) →
  staging_inv lookup f0 (fs st) →
  ∃ st',
    for_each ns (fun syslinux_file_name =>
      for_each syslinux_dirs (fun syslinux_dir =>
        let syslinux_file :=
          Py.join "" [lookup; syslinux_dir; syslinux_file_name] in
        b ← os_path_exists syslinux_file;
        if b : bool
        then shutil_copy syslinux_file (lookup +:+ "/image/loader/")
        else mret tt)) st = (Return tt, st')
    ∧ fs st' = stage_all lookup f0 ns (fs st).
Proof.
  intros Hgood Hnodir Hinv. rewrite Forall_forall in Hgood.
  destruct (for_each_fold (staging_inv lookup f0)
              (stage_name lookup f0)
              (fun syslinux_file_name =>
                 for_each syslinux_dirs (fun syslinux_dir =>
                   let syslinux_file :=
                     Py.join "" [lookup; syslinux_dir; syslinux_file_name]
                   in
                   b ← os_path_exists syslinux_file;
                   if b : bool
                   then shutil_copy syslinux_file
                          (lookup +:+ "/image/loader/")
                   else mret tt)) ns st)
    as (st' & Hrun & Hfs & _); [| | done | by exists st'].
  - intros f n Hn Hf. apply staging_inv_stage_name; auto.
  - intros s n Hn Hs.
    destruct (for_each_fold (staging_inv lookup f0)
                (fun f d => copy_step lookup f0 n d f)
                (fun syslinux_dir =>
                   let syslinux_file :=
                     Py.join "" [lookup; syslinux_dir; n] in
                   b ← os_path_exists syslinux_file;
                   if b : bool
                   then shutil_copy syslinux_file
                          (lookup +:+ "/image/loader/")
                   else mret tt) syslinux_dirs s)
      as (s' & Hrun & Hfs & _); [| | done | by exists s'].
    + intros f d Hd Hf. apply staging_inv_copy_step; auto.
    + intros s1 d Hd Hs1. apply copy_body_run; auto.
Qed.

(** The later candidate directory wins. *)
Lemma stage_name_same (f : gmap string node) (n c : string) :
  f0 !! (lookup +:+ "/usr/lib/syslinux/modules/bios/" +:+ n)
  = Some (File c) →
  stage_name lookup f0 f n !! ((lookup +:+ "/image/loader/") +:+ n)
  = Some (File c).
Proof.
  intros H. unfold stage_name, syslinux_dirs. simpl.
  unfold copy_step at 1. rewrite H. apply lookup_insert_eq.
Qed.

Lemma copy_step_other (f : gmap string node) (n m d : string) :
  m ≠ n →
  copy_step lookup f0 m d f !! ((lookup +:+ "/image/loader/") +:+ n)
  = f !! ((lookup +:+ "/image/loader/") +:+ n).
Proof.
  intros Hmn. unfold copy_step.
  destruct (f0 !! (lookup +:+ d +:+ m)) as [[c|]|]; try done.
  rewrite lookup_insert_ne; [done|].
  by intros H%append_inv_head.
Qed.

Lemma stage_name_other (f : gmap string node) (n m : string) :
  m ≠ n →
  stage_name lookup f0 f m !! ((lookup +:+ "/image/loader/") +:+ n)
  = f !! ((lookup +:+ "/image/loader/") +:+ n).
Proof.
  intros Hmn. unfold stage_name, syslinux_dirs. simpl.
  by rewrite !copy_step_other.
Qed.

Lemma stage_all_other (ns : list string) (f : gmap string node)
    (n : string) :
  n ∉ ns →
  stage_all lookup f0 ns f !! ((lookup +:+ "/image/loader/") +:+ n)
  = f !! ((lookup +:+ "/image/loader/") +:+ n).
Proof.
  revert f. induction ns as [|m ns IH]; intros f Hn; [done|].
  apply not_elem_of_cons in Hn as [Hnm Hn].
  unfold stage_all in *. simpl. rewrite IH by done.
  by apply stage_name_other.
Qed.

Lemma stage_all_later_wins (ns : list string) (f : gmap string node)
    (n c : string) :
  n ∈ ns →
  f0 !! (lookup +:+ "/usr/lib/syslinux/modules/bios/" +:+ n)
  = Some (File c) →
  stage_all lookup f0 ns f !! ((lookup +:+ "/image/loader/") +:+ n)
  = Some (File c).
Proof.
  intros Hn Hc. revert f.
  induction ns as [|m ns IH]; intros f; [by apply elem_of_nil in Hn|].
  unfold stage_all in *. simpl.
  destruct (decide (n ∈ ns)) as [Hin|Hout]; [by apply IH|].
  apply elem_of_cons in Hn as [->|Hn]; [|done].
  fold (stage_all lookup f0 ns (stage_name lookup f0 f m)).
  rewrite stage_all_other by done. by apply stage_name_same.
Qed.

End Loop.

(** The file system [prepare_loader_data] hands to the copy loop. *)
Lemma prepare_loader_data_run (st : state) :
  ∃ st',
    prepare_loader_data lookup st
    = (Return (lookup +:+ "/image/loader/"), st')
    ∧ staging_inv lookup (fs st') (fs st')
    ∧ (∀ d n, d ∈ syslinux_dirs →
              fs st' !! (lookup +:+ d +:+ n) = fs st !! (lookup +:+ d +:+ n)).
Proof.
  unfold prepare_loader_data, Path_wipe, Path_create,
    mbind, M_bind, mret, M_ret.
  cbn [fs with_fs].
  set (wiped := filter _ (fs st)).
  assert (∀ k, String.prefix (lookup +:+ "/image/loader/") k = true →
               wiped !! k = None) as Hin.
  { intros k Hk. apply map_lookup_filter_None_2. right.
    intros x _. cbn. congruence. }
  assert (∀ k, String.prefix (lookup +:+ "/image/loader/") k = false →
               wiped !! k = fs st !! k) as Hout.
  { intros k Hk. subst wiped. rewrite map_lookup_filter.
    destruct (fs st !! k); [|done]. cbn. by rewrite option_guard_True. }
  rewrite Hin.
  2:{ rewrite <- (append_nil_r (lookup +:+ "/image/loader/")) at 2.
      apply prefix_append. }
  eexists. split; [done|]. cbn [fs with_fs]. split; [split; [|split]|].
  - unfold isdir. by rewrite lookup_insert_eq.
  - done.
  - intros n Hn. rewrite lookup_insert_ne by (symmetry; by apply append_ne_self).
    by rewrite Hin by apply prefix_append.
  - intros d n Hd.
    rewrite lookup_insert_ne
      by (intros H; symmetry in H; by apply source_not_loader_data in H).
    by rewrite Hout by (by apply source_outside_loader_data).
Qed.

Lemma syslinux_file_names_good : Forall good_name syslinux_file_names.
Proof. unfold syslinux_file_names. repeat constructor; done. Qed.

Lemma bind_run {A B} (m : M A) (f : A → M B) (st st1 : state) (a : A) :
  m st = (Return a, st1) → (m ≫= f) st = f a st1.
Proof. intros H. unfold mbind, M_bind. by rewrite H. Qed.

End Staging.

(** ** Staging: the paths the copy loop does not write *)

Section StagingMore.

Variable lookup : string.
Variable f0 : gmap string node.

Lemma copy_step_frame (f : gmap string node) (n d k : string) :
  k ≠ (lookup +:+ "/image/loader/") +:+ n →
  copy_step lookup f0 n d f !! k = f !! k.
Proof.
  intros Hk. unfold copy_step.
  destruct (f0 !! (lookup +:+ d +:+ n)) as [[c|]|]; try done.
  by rewrite lookup_insert_ne.
Qed.

Lemma stage_all_frame (ns : list string) (f : gmap string node)
    (k : string) :
  (∀ n, n ∈ ns → k ≠ (lookup +:+ "/image/loader/") +:+ n) →
  stage_all lookup f0 ns f !! k = f !! k.
Proof.
  revert f. induction ns as [|m ns IH]; intros f Hk; [done|].
  unfold stage_all in *. simpl. rewrite IH.
  - unfold stage_name, syslinux_dirs. simpl.
    rewrite !copy_step_frame; [done| |]; apply Hk; by left.
  - intros n Hn. apply Hk. by right.
Qed.

Lemma stage_name_choice (f : gmap string node) (n : string) :
  stage_name lookup f0 f n !! ((lookup +:+ "/image/loader/") +:+ n)
  = staged_choice lookup f0 n (f !! ((lookup +:+ "/image/loader/") +:+ n)).
Proof.
  unfold stage_name, syslinux_dirs, staged_choice. simpl.
  unfold copy_step.
  destruct (f0 !! (lookup +:+ "/usr/lib/syslinux/modules/bios/" +:+ n))
    as [[c2|]|];
    destruct (f0 !! (lookup +:+ "/usr/share/syslinux/" +:+ n)) as [[c1|]|];
    by rewrite ?lookup_insert_eq.
Qed.

Lemma staged_choice_twice (n : string) (x : option node) :
  staged_choice lookup f0 n (staged_choice lookup f0 n x)
  = staged_choice lookup f0 n x.
Proof. unfold staged_choice. by repeat case_match. Qed.

Lemma stage_all_choice (ns : list string) (f : gmap string node)
    (n : string) :
  n ∈ ns →
  stage_all lookup f0 ns f !! ((lookup +:+ "/image/loader/") +:+ n)
  = staged_choice lookup f0 n (f !! ((lookup +:+ "/image/loader/") +:+ n)).
Proof.
  revert f. induction ns as [|m ns IH]; intros f Hn;
    [by apply elem_of_nil in Hn|].
  unfold stage_all in *. simpl.
  destruct (decide (n ∈ ns)) as [Hin|Hout].
  - rewrite IH by done. destruct (decide (m = n)) as [->|Hmn].
    + by rewrite stage_name_choice, staged_choice_twice.
    + by rewrite stage_name_other.
  - apply elem_of_cons in Hn as [->|Hn]; [|done].
    fold (stage_all lookup f0 ns (stage_name lookup f0 f m)).
    rewrite stage_all_other by done. apply stage_name_choice.
Qed.

End StagingMore.

(** The staging directory as [prepare_loader_data] leaves it. *)
Lemma prepare_loader_data_fs (lookup : string) (st : state) :
  ∃ st',
    prepare_loader_data lookup st
    = (Return (lookup +:+ "/image/loader/"), st')
    ∧ (∀ k, String.prefix (lookup +:+ "/image/loader/") k = false →
            fs st' !! k = fs st !! k)
    ∧ (∀ k, String.prefix (lookup +:+ "/image/loader/") k = true →
            k ≠ lookup +:+ "/image/loader/" → fs st' !! k = None).
Proof.
  unfold prepare_loader_data, Path_wipe, Path_create,
    mbind, M_bind, mret, M_ret.
  cbn [fs with_fs].
  set (wiped := filter _ (fs st)).
  assert (∀ k, String.prefix (lookup +:+ "/image/loader/") k = true →
               wiped !! k = None) as Hin.
  { intros k Hk. apply map_lookup_filter_None_2. right.
    intros x _. cbn. congruence. }
  assert (∀ k, String.prefix (lookup +:+ "/image/loader/") k = false →
               wiped !! k = fs st !! k) as Hout.
  { intros k Hk. subst wiped. rewrite map_lookup_filter.
    destruct (fs st !! k); [|done]. cbn. by rewrite option_guard_True. }
  assert (String.prefix (lookup +:+ "/image/loader/")
            (lookup +:+ "/image/loader/") = true) as Hself.
  { rewrite <- (append_nil_r (lookup +:+ "/image/loader/")) at 2.
    apply prefix_append. }
  rewrite Hin by done.
  eexists. split; [done|]. cbn [fs with_fs]. split.
  - intros k Hk. rewrite lookup_insert_ne by congruence. by apply Hout.
  - intros k Hk Hne. rewrite lookup_insert_ne by done. by apply Hin.
Qed.

(** The copy loop after the wipe, when no candidate is a directory: it
    returns, and the file system is the fold of the copy steps over the
    one the wipe left. *)
Lemma staging_run (lookup : string) (st : state) :
  (∀ d n, d ∈ syslinux_dirs → n ∈ syslinux_file_names →
          fs st !! (lookup +:+ d +:+ n) ≠ Some Directory) →
  ∃ s1 st',
    prepare_loader_data lookup st
    = (Return (lookup +:+ "/image/loader/"), s1)
    ∧ (loader_data ← prepare_loader_data lookup;
       copy_syslinux_files lookup loader_data) st = (Return tt, st')
    ∧ fs st' = stage_all lookup (fs s1) syslinux_file_names (fs s1)
    ∧ (∀ d n, d ∈ syslinux_dirs →
              fs s1 !! (lookup +:+ d +:+ n) = fs st !! (lookup +:+ d +:+ n)).
Proof.
  intros Hnodir.
  destruct (prepare_loader_data_run lookup st) as (s1 & Hprep & Hinv & Hsrc).
  destruct (copy_loop_run lookup (fs s1) syslinux_file_names s1)
    as (st' & Hrun & Hfs); [apply syslinux_file_names_good | | done |].
  { intros d n Hd Hn. rewrite Hsrc by done. by apply Hnodir. }
  exists s1, st'. unfold mbind, M_bind. rewrite Hprep. done.
Qed.

(** What the wipe and the copy loop leave, when no candidate is a
    directory: the loop returns, a required file name that the later
    candidate directory has as a file is staged from there, and the paths
    outside the staging directory are as they were. *)
Lemma staging_frame (lookup : string) (st : state) :
  (∀ d n, d ∈ syslinux_dirs → n ∈ syslinux_file_names →
          fs st !! (lookup +:+ d +:+ n) ≠ Some Directory) →
  ∃ st',
    (loader_data ← prepare_loader_data lookup;
     copy_syslinux_files lookup loader_data) st = (Return tt, st')
    ∧ (∀ n c, n ∈ syslinux_file_names →
         fs st !! (lookup +:+ "/usr/lib/syslinux/modules/bios/" +:+ n)
         = Some (File c) →
         fs st' !! ((lookup +:+ "/image/loader/") +:+ n) = Some (File c))
    ∧ (∀ k, String.prefix (lookup +:+ "/image/loader/") k = false →
            fs st' !! k = fs st !! k).
Proof.
  intros Hnodir.
  destruct (staging_run lookup st Hnodir)
    as (s1 & st' & Hprep & Hrun & Hfs & Hsrc).
  destruct (prepare_loader_data_fs lookup st) as (s1' & Hprep' & Hout & _).
  rewrite Hprep in Hprep'. injection Hprep' as <-.
  exists st'. split; [done|]. split.
  - intros n c Hn Hc. rewrite Hfs. apply stage_all_later_wins; [done|].
    rewrite Hsrc; [done|]. unfold syslinux_dirs.
    apply elem_of_cons; right. apply elem_of_cons; by left.
  - intros k Hk. rewrite Hfs, stage_all_frame; [by apply Hout|].
    intros n _ ->. by rewrite prefix_append in Hk.
Qed.

(** That no candidate path is a directory is settled by going through
    the candidates. *)
Lemma no_directory_check (lookup : string) (f : gmap string node) :
  forallb (fun d =>
             forallb (fun n => negb (isdir f (lookup +:+ d +:+ n)))
               syslinux_file_names) syslinux_dirs = true →
  ∀ d n, d ∈ syslinux_dirs → n ∈ syslinux_file_names →
         f !! (lookup +:+ d +:+ n) ≠ Some Directory.
Proof.
  intros H d n Hd Hn Hdir.
  rewrite forallb_forall in H.
  specialize (H d (proj1 (list_elem_of_In _ _) Hd)).
  rewrite forallb_forall in H.
  specialize (H n (proj1 (list_elem_of_In _ _) Hn)).
  unfold isdir in H. by rewrite Hdir in H.
Qed.

(** ** Staging: the steps after the copy loop *)

Section Leads.

Context {A B : Type}.
Implicit Types P Q R : gmap string node → Prop.

Lemma leads_ret P (a : A) : leads P P (mret a).
Proof. by intros st. Qed.

Lemma leads_bind P Q R (m : M A) (g : A → M B) :
  leads P Q m → (∀ f, Q f → R f) → (∀ a, leads Q R (g a)) →
  leads P R (m ≫= g).
Proof.
  intros Hm HQR Hg st Hst. unfold mbind, M_bind.
  specialize (Hm st Hst). destruct (m st) as [[a|e] st1]; cbn in *.
  - by apply Hg.
  - by apply HQR.
Qed.

End Leads.

Lemma leads_os_path_exists (P : gmap string node → Prop) (p : string) :
  leads P P (os_path_exists p).
Proof. by intros st. Qed.

Lemma leads_Path_create (P : gmap string node → Prop) (k : string)
    (v : node) (p : string) :
  leads (fun f => P f ∧ f !! k = Some v) (fun f => f !! k = Some v)
    (Path_create p).
Proof.
  intros st [_ Hst]. unfold Path_create.
  destruct (fs st !! p) eqn:E; [done|]. cbn [snd fs with_fs].
  rewrite lookup_insert_ne; [done|]. congruence.
Qed.

Section ToolsKeep.

Variable t : Tools.
Variable commands : list (list string).
Variables source target : string.
Variable guard : gmap string node → Prop.
Variable k : string.
Variable v : node.
Hypothesis Hkeep : tools_keep t commands source target guard k v.

Lemma leads_Command_run (command : list string) (raise_on_error : bool) :
  command ∈ commands →
  leads (fun f => guard f ∧ f !! k = Some v)
    (fun f => guard f ∧ f !! k = Some v)
    (Command_run t command raise_on_error).
Proof.
  intros Hc st [Hg Hst]. unfold Command_run.
  pose proof (proj1 Hkeep command (fs st) Hc Hg Hst) as H.
  destruct (execute t command (fs st)) as [ok f].
  by destruct (ok || negb raise_on_error).
Qed.

Lemma leads_DataSync_sync_data :
  leads (fun f => f !! k = Some v) (fun f => f !! k = Some v)
    (DataSync_sync_data t source target ["-z"; "-a"]).
Proof.
  intros st Hst. unfold DataSync_sync_data.
  pose proof (proj2 Hkeep (fs st) Hst) as H.
  by destruct (sync_data t source target ["-z"; "-a"] (fs st)) as [r f].
Qed.

End ToolsKeep.

(** C6, as the code has it. Staging is run through either entry point on
    a file system in which no candidate path is a directory, for a build
    whose theme, if it has one, ships no cdrom file named like the
    required loader file in question, and with tools that keep the
    staged file: the memtest copy, the theme commands and the sync leave
    it as they find it. A required loader file name that is a file in
    both candidate directories is then, when the method is through,
    returned or raised, a file of the staging directory with the content
    of the copy in the directory listed later. *)
Theorem staged_file_from_later_directory (t : Tools) (mbrid : string)
    (lookup_path : option string) (st : state) (name c1 c2 : string) :
  let o := self st in
  let lookup := if Py.truthy lookup_path then default "" lookup_path
                else root_dir (base o) in
  let loader_data := lookup +:+ "/image/loader/" in
  let theme := get_boot_theme (base o) in
  let theme_file := theme_directory lookup theme +:+ "/cdrom/" +:+ name in
  let no_theme_file := fun f : gmap string node =>
    Py.truthy theme = true → f !! theme_file = None in
  name ∈ syslinux_file_names →
  fs st !! (lookup +:+ "/usr/share/syslinux/" +:+ name) = Some (File c1) →
  fs st !! (lookup +:+ "/usr/lib/syslinux/modules/bios/" +:+ name)
  = Some (File c2) →
  (∀ d n, d ∈ syslinux_dirs → n ∈ syslinux_file_names →
          fs st !! (lookup +:+ d +:+ n) ≠ Some Directory) →
  no_theme_file (fs st) →
  tools_keep t (staging_commands lookup theme) loader_data
    (_get_iso_boot_path o) no_theme_file (loader_data +:+ name) (File c2) →
  fs (setup_install_boot_images t mbrid lookup_path st).2
    !! (loader_data +:+ name) = Some (File c2)
  ∧ fs (setup_live_boot_images t mbrid lookup_path st).2
      !! (loader_data +:+ name) = Some (File c2).
Proof.
  intros o lookup loader_data theme theme_file no_theme_file
    Hname _ H2 Hnodir Hclash Hkeep.
  assert (fs (setup_install_boot_images t mbrid lookup_path st).2
            !! (loader_data +:+ name) = Some (File c2)) as H;
    [|split; exact H].
  destruct (staging_frame lookup st Hnodir) as (s2 & Hrun & Hlater & Hout).
  assert (no_theme_file (fs s2)
          ∧ fs s2 !! (loader_data +:+ name) = Some (File c2)) as Hs2.
  { split; [|by apply Hlater].
    intros Htheme. rewrite Hout; [by apply Hclash|].
    unfold theme_file, theme_directory. rewrite join3, !append_assoc.
    by rewrite prefix_append_head. }
  destruct (prepare_loader_data_run lookup st) as (s1 & Hprep & _ & _).
  revert Hrun. unfold mbind at 1, M_bind at 1. rewrite Hprep. intros Hrun.
  unfold setup_install_boot_images, _copy_loader_data_to_boot_directory.
  erewrite bind_run by reflexivity. cbv beta zeta. fold o lookup.
  erewrite bind_run by exact Hprep. cbv beta.
  erewrite bind_run by exact Hrun. cbv beta.
  fold loader_data theme.
  set (P := fun f : gmap string node =>
              no_theme_file f ∧ f !! (loader_data +:+ name) = Some (File c2)).
  set (R := fun f : gmap string node =>
              f !! (loader_data +:+ name) = Some (File c2)).
  match goal with
  | |- fs (?m s2).2 !! _ = _ =>
      cut (leads P R m); [intros Hleads; exact (Hleads s2 Hs2)|]
  end.
  assert (∀ f, P f → R f) as HPR by (intros f Hf; apply Hf).
  pose proof (leads_Command_run t _ _ _ _ _ _ Hkeep) as Hcmd.
  fold P in Hcmd. unfold staging_commands in Hcmd. fold loader_data in Hcmd.
  apply (leads_bind P P R); [apply Hcmd; by left | done | intros _].
  apply (leads_bind P P R); [|done|intros _].
  - remember (Py.truthy theme) as themed eqn:Htheme in |- *.
    destruct themed; [|apply leads_ret]. rewrite <- Htheme in Hcmd.
    apply (leads_bind P P P); [apply leads_os_path_exists|done|intros b].
    apply (leads_bind P P P); [|done|intros _].
    + destruct b; [|apply leads_ret].
      apply (leads_bind P P P); [|done|intros _]; apply Hcmd.
      * right; by left.
      * right; right; by left.
    + apply (leads_bind P P P); [apply leads_os_path_exists|done|intros []];
        [|apply leads_ret].
      apply Hcmd. right; right; right; by left.
  - apply (leads_bind P R R); [apply leads_Path_create|done|intros _].
    by apply (leads_DataSync_sync_data t _ _ _ _ _ _ Hkeep).
Qed.

(** ** Staging with the tools of a theme *)

Lemma copy_file_frame (source target k : string) (f : gmap string node) :
  target ≠ k → Themed.copy_file source target f !! k = f !! k.
Proof.
  intros H. unfold Themed.copy_file.
  destruct (f !! source) as [[c|]|]; try done. by rewrite lookup_insert_ne.
Qed.

Lemma copy_files_frame (source target k : string) (names : list string)
    (f : gmap string node) :
  (∀ n, n ∈ names → target +:+ n ≠ k) →
  Themed.copy_files source target names f !! k = f !! k.
Proof.
  induction names as [|n names IH]; intros H; [done|].
  unfold Themed.copy_files in *. cbn [foldr].
  rewrite copy_file_frame by (apply H; by left).
  apply IH. intros m Hm. apply H. by right.
Qed.

(** Settles that no name of a concrete list lands on a given path. *)
Ltac other_names :=
  let n := fresh "n" in
  let Hn := fresh "Hn" in
  intros n Hn;
  unfold syslinux_file_names in Hn; cbn [app] in Hn;
  repeat (apply elem_of_cons in Hn as [->|Hn]; [discriminate|]);
  by apply elem_of_nil in Hn.

(** Settles which command the tools of [Themed] were handed. *)
Ltac which_command :=
  unfold Themed.tools; cbn [execute];
  repeat match goal with
         | |- context [bool_decide (?a = ?b)] =>
             first
               [ rewrite (bool_decide_eq_true_2 (a = b)) by reflexivity
               | rewrite (bool_decide_eq_false_2 (a = b))
                   by (vm_compute; discriminate) ]
         end.

(** The tools of a theme that ships a splash configuration and a logo
    keep the staged isolinux.bin, whatever the file system is. *)
Lemma themed_tools_keep :
  tools_keep (Themed.tools ["gfxboot.cfg"; "bootlogo"])
    (staging_commands "/tmp/root" (Some "openSUSE"))
    "/tmp/root/image/loader/" "/tmp/root/boot/x86_64/loader"
    (fun f =>
       Py.truthy (Some "openSUSE") = true →
       f !! "/tmp/root/etc/bootsplash/themes/openSUSE/cdrom/isolinux.bin"
       = None)
    "/tmp/root/image/loader/isolinux.bin" (File "bios").
Proof.
  split.
  - intros command f Hc Hg Hk.
    unfold staging_commands in Hc. cbn [Py.truthy String.eqb negb] in Hc.
    repeat (apply elem_of_cons in Hc as [->|Hc]);
      [| | | |by apply elem_of_nil in Hc];
      (split; [intros Ht; specialize (Hg Ht)|]);
      which_command; cbn [snd];
      rewrite ?copy_files_frame by other_names; done.
  - intros f Hk. cbn [sync_data Themed.tools snd].
    rewrite copy_files_frame; [done|]. other_names.
Qed.

Lemma staged_file_from_later_directory_witness :
  let st := Themed.fresh Themed.sources in
  let t := Themed.tools ["gfxboot.cfg"; "bootlogo"] in
  fs (setup_install_boot_images t "0xffffffff" None st).2
    !! "/tmp/root/image/loader/isolinux.bin" = Some (File "bios")
  ∧ fs (setup_live_boot_images t "0xffffffff" None st).2
      !! "/tmp/root/image/loader/isolinux.bin" = Some (File "bios").
Proof.
  intros st t.
  apply (staged_file_from_later_directory t "0xffffffff" None st
           "isolinux.bin" "general" "bios").
  - vm_compute. left.
  - reflexivity.
  - reflexivity.
  - apply no_directory_check. vm_compute. reflexivity.
  - intros _. reflexivity.
  - exact themed_tools_keep.
Defined.

(** That run in full: the method returns, the loader files are staged
    from the later directory, the theme files are staged next to them,
    and the sync has carried both to the boot directory. *)
Example themed_staging_demo :
  let r := setup_install_boot_images (Themed.tools ["gfxboot.cfg"; "bootlogo"])
             "0xffffffff" None (Themed.fresh Themed.sources) in
  r.1 = Return tt
  ∧ fs r.2 !! "/tmp/root/image/loader/isolinux.bin" = Some (File "bios")
  ∧ fs r.2 !! "/tmp/root/image/loader/gfxboot.com"
    = Some (File "bios gfxboot")
  ∧ fs r.2 !! "/tmp/root/image/loader/bootlogo" = Some (File "theme logo")
  ∧ fs r.2 !! "/tmp/root/image/loader/message" = Some (File "theme message")
  ∧ fs r.2 !! "/tmp/root/boot/x86_64/loader/isolinux.bin"
    = Some (File "bios")
  ∧ fs r.2 !! "/tmp/root/boot/x86_64/loader/bootlogo"
    = Some (File "theme logo").
Proof. vm_compute. repeat split. Qed.

(** C6 as stated fails, in two ways. First run: the first candidate of
    the copy loop is a directory; the copy raises, staging stops there,
    and menu.c32, a file in both candidate directories, is never staged.
    Second run: the theme ships a gfxboot.com of its own; the copy loop
    stages the gfxboot.com of the later candidate directory, and the
    theme copy that the method runs afterwards puts the theme's file in
    its place. *)
Lemma staged_file_not_from_later_directory :
  (let st := Demo.holding None None Themed.broken_sources in
   let r := setup_install_boot_images Demo.idle_tools "0xffffffff" None st in
   "menu.c32" ∈ syslinux_file_names
   ∧ fs st !! "/tmp/root/usr/share/syslinux/menu.c32" = Some (File "menu")
   ∧ fs st !! "/tmp/root/usr/lib/syslinux/modules/bios/menu.c32"
     = Some (File "bios menu")
   ∧ r.1 = Raise (IsADirectoryError
                    "/tmp/root/usr/share/syslinux/isolinux.bin")
   ∧ fs r.2 !! "/tmp/root/image/loader/menu.c32" = None)
  ∧ (let st := Themed.fresh Themed.sources in
     let r := setup_install_boot_images
                (Themed.tools ["gfxboot.cfg"; "bootlogo"; "gfxboot.com"])
                "0xffffffff" None st in
     "gfxboot.com" ∈ syslinux_file_names
     ∧ fs st !! "/tmp/root/usr/share/syslinux/gfxboot.com"
       = Some (File "general gfxboot")
     ∧ fs st !! "/tmp/root/usr/lib/syslinux/modules/bios/gfxboot.com"
       = Some (File "bios gfxboot")
     ∧ r.1 = Return tt
     ∧ fs r.2 !! "/tmp/root/image/loader/gfxboot.com"
       = Some (File "theme gfxboot")).
Proof.
  split; cbv zeta; (split; [vm_compute; repeat constructor|]);
    vm_compute; repeat split.
Qed.

(** The copy loop on that file system, run: the file that only the
    general directory has is staged from there. *)
Example copy_loop_demo :
  let r := (loader_data ← prepare_loader_data "/tmp/root";
            copy_syslinux_files "/tmp/root" loader_data)
             (Demo.holding None None Demo.loader_sources) in
  r.1 = Return tt
  ∧ fs r.2 !! "/tmp/root/image/loader/isolinux.bin" = Some (File "bios")
  ∧ fs r.2 !! "/tmp/root/image/loader/menu.c32" = Some (File "menu")
  ∧ fs r.2 !! "/tmp/root/image/loader/chain.c32" = None.
Proof. vm_compute. repeat split. Qed.

(** ** Staging entry points *)

(** C9. For every mbrid and lookup path, and whatever the external tools
    do, [setup_live_boot_images] is [setup_install_boot_images]: the same
    outcome and the same state from every state. *)
Theorem setup_live_boot_images_as_install (t : Tools) (mbrid : string)
    (lookup_path : option string) (st : state) :
  setup_live_boot_images t mbrid lookup_path st
  = setup_install_boot_images t mbrid lookup_path st.
Proof. reflexivity. Qed.

(** The whole method with idle tools: the best-effort memtest copy fails
    without stopping the run, and the staged loader is the later one. *)
Example staging_demo :
  let r := setup_live_boot_images Demo.idle_tools "0xffffffff" None
             (Demo.holding None None Demo.loader_sources) in
  r.1 = Return tt
  ∧ fs r.2 !! "/tmp/root/image/loader/isolinux.bin" = Some (File "bios")
  ∧ fs r.2 !! "/tmp/root/boot/x86_64/loader" = Some Directory.
Proof. vm_compute. repeat split. Qed.

(** * Further properties of the class *)

(** ** Construction, continued *)

Lemma post_init_rest (h : Host) (b : BootLoaderConfigBase)
    (custom : option (gmap string Py.value)) (o : BootLoaderConfigIsoLinux) :
  post_init h b custom = Return o →
  cmdline_failsafe o
  = get_boot_cmdline b +:+ " " +:+ get_failsafe_kernel_options (defaults h)
  ∧ custom_args o = custom
  ∧ live_type o
    = Py.or_ (get_flags (build_type (xml_state b)))
        (get_default_live_iso_type (defaults h))
  ∧ terminal o = get_bootloader_console (build_type (xml_state b))
  ∧ gfxmode o = get_gfxmode b "isolinux"
  ∧ failsafe_boot o = failsafe_boot_entry_requested b
  ∧ mediacheck_boot o = get_mediacheck (build_type (xml_state b))
  ∧ isolinux o = new_BootLoaderTemplateIsoLinux h.
Proof.
  unfold post_init.
  destruct (resolve_arch (platform_machine h)) as [a|e]; [|done].
  by intros [= <-].
Qed.

Lemma join_cons (sep x y : string) (l : list string) :
  Py.join sep (x :: y :: l) = x +:+ sep +:+ Py.join sep (y :: l).
Proof. reflexivity. Qed.

Lemma render_parameters_lookup (o : BootLoaderConfigIsoLinux)
    (hypervisor kernel initrd key : string) :
  key ≠ "hypervisor" →
  install_render_parameters o hypervisor kernel initrd !! key
  = install_parameters o kernel initrd !! key
  ∧ live_render_parameters o hypervisor kernel initrd !! key
    = live_parameters o kernel initrd !! key.
Proof.
  intros Hk. unfold install_render_parameters, live_render_parameters.
  destruct (multiboot o); by rewrite ?lookup_insert_ne.
Qed.

(** X1. In the parameter maps of both render routines the boot options
    are the base cmdline, a space and the space-joined mode options, and
    the failsafe boot options are the same with the failsafe kernel
    options put between the cmdline and the mode options. *)
Theorem failsafe_options_between_cmdline_and_mode (h : Host)
    (b : BootLoaderConfigBase) (custom : option (gmap string Py.value))
    (o : BootLoaderConfigIsoLinux) (hypervisor kernel initrd : string) :
  post_init h b custom = Return o →
  let cmd := get_boot_cmdline b in
  let safe := get_failsafe_kernel_options (defaults h) in
  let inst := Py.join " " (install_boot_options o) in
  let live := Py.join " " (live_boot_options o) in
  let ip := install_render_parameters o hypervisor kernel initrd in
  let lp := live_render_parameters o hypervisor kernel initrd in
  ip !! "boot_options" = Some (Py.Str (cmd +:+ " " +:+ inst))
  ∧ ip !! "failsafe_boot_options"
    = Some (Py.Str (cmd +:+ " " +:+ safe +:+ " " +:+ inst))
  ∧ lp !! "boot_options" = Some (Py.Str (cmd +:+ " " +:+ live))
  ∧ lp !! "failsafe_boot_options"
    = Some (Py.Str (cmd +:+ " " +:+ safe +:+ " " +:+ live)).
Proof.
  intros Hinit.
  pose proof (post_init_rest _ _ _ _ Hinit) as (Hsafe & _).
  apply post_init_inv in Hinit
    as (a & _ & _ & _ & _ & _ & Hi & Hl & _ & Hc & _).
  cbv zeta.
  assert (∃ x r, install_boot_options o = x :: r) as (x & r & Hix).
  { rewrite Hi. case_bool_decide; eauto. }
  assert (∃ y s, live_boot_options o = y :: s) as (y & s & Hly).
  { rewrite Hl. destruct (Py.truthy_flag _); simpl; eauto. }
  destruct (render_parameters_lookup o hypervisor kernel initrd
              "boot_options") as [-> ->]; [done|].
  destruct (render_parameters_lookup o hypervisor kernel initrd
              "failsafe_boot_options") as [-> ->]; [done|].
  unfold install_parameters, live_parameters.
  rewrite Hsafe, Hc, Hix, Hly. simplify_map_eq.
  rewrite !append_assoc. done.
Qed.

Lemma failsafe_options_between_cmdline_and_mode_witness :
  install_render_parameters Demo.object "xen.gz" "linux" "initrd"
    !! "failsafe_boot_options"
  = Some (Py.Str ("splash quiet ide=nodma apm=off noresume "
                  +:+ "loglevel=0 root=install:CDLABEL=INSTALL1")).
Proof.
  refine (proj1 (proj2 (failsafe_options_between_cmdline_and_mode
    (Demo.host "x86_64") (Demo.build (Some "dracut") None 10) None
    Demo.object "xen.gz" "linux" "initrd" _))).
  reflexivity.
Defined.

(** X2. The boot path of a constructed object is one of two: under
    boot/x86_64/loader or under boot/ix86/loader of the root directory. *)
Theorem iso_boot_path_of_constructed (h : Host) (b : BootLoaderConfigBase)
    (custom : option (gmap string Py.value)) (o : BootLoaderConfigIsoLinux) :
  post_init h b custom = Return o →
  _get_iso_boot_path o = root_dir b +:+ "/boot/x86_64/loader"
  ∨ _get_iso_boot_path o = root_dir b +:+ "/boot/ix86/loader".
Proof.
  intros (a & Ha & <- & Hb & _)%post_init_inv.
  unfold _get_iso_boot_path. rewrite Hb.
  destruct (resolve_arch_cases (platform_machine h))
    as [[_ Hr]|[[_ Hr]|(_ & _ & _ & Hr)]];
    rewrite Hr in Ha; simplify_eq; rewrite <- Ha; [by left | by right].
Qed.

Lemma iso_boot_path_of_constructed_witness :
  ∃ o, post_init (Demo.host "i586") (Demo.build None None 0) None = Return o
       ∧ (_get_iso_boot_path o = "/tmp/root" +:+ "/boot/x86_64/loader"
          ∨ _get_iso_boot_path o = "/tmp/root" +:+ "/boot/ix86/loader").
Proof.
  eexists. split; [reflexivity|].
  apply (iso_boot_path_of_constructed (Demo.host "i586")
           (Demo.build None None 0) None).
  reflexivity.
Defined.

(** X3. A volume id set on the build type, when not empty, is both the
    install volume id and the live volume id; unset or empty, the two
    ids are the two defaults. *)
Theorem volume_ids_of_constructed (h : Host) (b : BootLoaderConfigBase)
    (custom : option (gmap string Py.value)) (o : BootLoaderConfigIsoLinux) :
  post_init h b custom = Return o →
  (∀ v, get_volid (build_type (xml_state b)) = Some v → v ≠ "" →
        install_volid o = v ∧ volume_id o = v)
  ∧ (Py.truthy (get_volid (build_type (xml_state b))) = false →
     install_volid o = get_install_volume_id (defaults h)
     ∧ volume_id o = get_volume_id (defaults h)).
Proof.
  intros (a & _ & _ & _ & -> & -> & _)%post_init_inv.
  destruct (get_volid (build_type (xml_state b))) as [w|]; simpl.
  - destruct (String.eqb_spec w ""); split; try done.
    + by intros v [= ->] Hv.
    + by intros v [= ->] Hv.
  - split; done.
Qed.

Lemma volume_ids_of_constructed_witness :
  install_volid Demo.object = "INSTALL1" ∧ volume_id Demo.object = "LIVE123".
Proof.
  refine (proj2 (volume_ids_of_constructed (Demo.host "x86_64")
    (Demo.build (Some "dracut") None 10) None Demo.object _) _);
    reflexivity.
Defined.

(** X4. The parameter maps of a constructed object hold a hypervisor
    entry exactly when the build is a Xen server, and then it is the
    hypervisor argument of the call. *)
Theorem hypervisor_parameter_of_constructed (h : Host)
    (b : BootLoaderConfigBase) (custom : option (gmap string Py.value))
    (o : BootLoaderConfigIsoLinux) (hypervisor kernel initrd : string) :
  post_init h b custom = Return o →
  install_render_parameters o hypervisor kernel initrd !! "hypervisor"
  = (if is_xen_server (xml_state b) then Some (Py.Str hypervisor) else None)
  ∧ live_render_parameters o hypervisor kernel initrd !! "hypervisor"
    = (if is_xen_server (xml_state b) then Some (Py.Str hypervisor)
       else None).
Proof.
  intros (a & _ & _ & _ & _ & _ & _ & _ & _ & _ & Hm & _)%post_init_inv.
  unfold install_render_parameters, live_render_parameters,
    install_parameters, live_parameters.
  rewrite Hm. destruct (is_xen_server (xml_state b)); by simplify_map_eq.
Qed.

Lemma hypervisor_parameter_of_constructed_witness :
  install_render_parameters Demo.object "xen.gz" "linux" "initrd"
    !! "hypervisor" = None
  ∧ live_render_parameters Demo.object "xen.gz" "linux" "initrd"
      !! "hypervisor" = None.
Proof.
  apply (hypervisor_parameter_of_constructed (Demo.host "x86_64")
           (Demo.build (Some "dracut") None 10) None Demo.object).
  reflexivity.
Defined.

(** ** Writing, continued *)

(** Runs [write] symbolically, splitting every test it makes. *)
Ltac run_write :=
  unfold write, open_write, Path_create, log_info, get_self, with_fs,
    mbind, M_bind, mret, M_ret;
  cbn -[_get_iso_boot_path Py.truthy Py.dirname isdir];
  repeat (case_match;
          cbn -[_get_iso_boot_path Py.truthy Py.dirname isdir] in *;
          simplify_eq).

(** X5. An object that was constructed and never rendered holds no text:
    [write] creates nothing, whatever the file system is, and returns. *)
Theorem write_of_unrendered_object (h : Host) (b : BootLoaderConfigBase)
    (custom : option (gmap string Py.value)) (o : BootLoaderConfigIsoLinux)
    (f : gmap string node) (l : list string) :
  post_init h b custom = Return o →
  write {| self := o; fs := f; log := l |}
  = (Return tt,
     {| self := o; fs := f; log := l ++ ["Writing isolinux.cfg file"] |}).
Proof.
  intros (a & _ & _ & _ & _ & _ & _ & _ & _ & _ & _ & Hc & Hm)%post_init_inv.
  unfold write, log_info, get_self, mbind, M_bind, mret, M_ret.
  cbn -[_get_iso_boot_path]. by rewrite Hc, Hm.
Qed.

Lemma write_of_unrendered_object_witness :
  write {| self := Demo.object; fs := Demo.loader_sources; log := [] |}
  = (Return tt,
     {| self := Demo.object; fs := Demo.loader_sources;
        log := [] ++ ["Writing isolinux.cfg file"] |}).
Proof.
  apply (write_of_unrendered_object (Demo.host "x86_64")
           (Demo.build (Some "dracut") None 10) None).
  reflexivity.
Defined.

(** X6. Whether it returns or raises, [write] leaves the object as it
    is, adds one line to the log, and leaves every path as it is other
    than the boot directory, the paths the boot directory starts with
    (its ancestors, which creating it may have to make), and the two
    files; the boot directory is either as before or was missing and is
    now a directory. *)
Theorem write_frame (st : state) :
  let dir := _get_iso_boot_path (self st) in
  let r := write st in
  self r.2 = self st
  ∧ log r.2 = log st ++ ["Writing isolinux.cfg file"]
  ∧ (∀ k, String.prefix k dir = false → k ≠ dir +:+ "/isolinux.cfg" →
          k ≠ dir +:+ "/isolinux.msg" → fs r.2 !! k = fs st !! k)
  ∧ (fs r.2 !! dir = fs st !! dir
     ∨ (fs st !! dir = None ∧ fs r.2 !! dir = Some Directory)).
Proof.
  pose proof (iso_boot_path_plain (self st)) as [_ Hne].
  assert (_get_iso_boot_path (self st)
          ≠ _get_iso_boot_path (self st) +:+ "/isolinux.cfg") as Hc
    by (intros H; symmetry in H; by apply append_ne_self in H).
  assert (_get_iso_boot_path (self st)
          ≠ _get_iso_boot_path (self st) +:+ "/isolinux.msg") as Hm
    by (intros H; symmetry in H; by apply append_ne_self in H).
  assert (∀ k, String.prefix k (_get_iso_boot_path (self st)) = false →
               k ≠ _get_iso_boot_path (self st)) as Hpre
    by (intros k Hk ->; by rewrite prefix_refl in Hk).
  cbv zeta. run_write;
    (split; [done|]; split; [done|]; cbn [fs]; split;
     [intros k Hk1%Hpre Hk2 Hk3; by rewrite ?lookup_insert_ne by done
     |rewrite ?lookup_insert_ne by done; rewrite ?lookup_insert_eq; auto]).
Qed.

(** ** Rendering, continued *)

Lemma rendered_frame (main msg : Template) (p : gmap string Py.value)
    (st0 : state) :
  let r := rendered main msg p st0 in
  fs r.2 = fs st0
  ∧ log r.2 = log st0
  ∧ self r.2
    = with_texts (config (self r.2)) (config_message (self r.2)) (self st0).
Proof.
  unfold rendered. destruct (substitute main p) as [c|e]; cbn.
  - destruct (substitute msg p) as [m|e]; cbn; by destruct st0.
  - destruct st0 as [[] ? ?]; cbn. done.
Qed.

(** X7. When the main template and the message template both substitute,
    a render routine returns, and the held texts are then the two
    renderings. *)
Theorem render_success (mbrid hypervisor kernel initrd : string)
    (st : state) (c m : string) :
  (substitute (install_main_template st)
     (install_render_parameters (self st) hypervisor kernel initrd)
   = Return c →
   substitute (get_install_message_template (isolinux (self st)))
     (install_render_parameters (self st) hypervisor kernel initrd)
   = Return m →
   ∃ st', setup_install_image_config mbrid hypervisor kernel initrd st
          = (Return tt, st')
          ∧ config (self st') = Some c
          ∧ config_message (self st') = Some m)
  ∧ (substitute (live_main_template st)
       (live_render_parameters (self st) hypervisor kernel initrd)
     = Return c →
     substitute (get_message_template (isolinux (self st)))
       (live_render_parameters (self st) hypervisor kernel initrd)
     = Return m →
     ∃ st', setup_live_image_config mbrid hypervisor kernel initrd st
            = (Return tt, st')
            ∧ config (self st') = Some c
            ∧ config_message (self st') = Some m).
Proof.
  split; intros Hc Hm.
  - rewrite setup_install_image_config_run. unfold rendered.
    rewrite Hc, Hm. eauto.
  - rewrite setup_live_image_config_run. unfold rendered.
    rewrite Hc, Hm. eauto.
Qed.

Lemma render_fields (mbrid hypervisor kernel initrd : string) (st : state) :
  (fs (setup_install_image_config mbrid hypervisor kernel initrd st).2 = fs st
   ∧ ∃ c m,
       self (setup_install_image_config mbrid hypervisor kernel initrd st).2
       = with_texts c m (self st))
  ∧ (fs (setup_live_image_config mbrid hypervisor kernel initrd st).2 = fs st
     ∧ ∃ c m,
         self (setup_live_image_config mbrid hypervisor kernel initrd st).2
         = with_texts c m (self st)).
Proof.
  rewrite setup_install_image_config_run, setup_live_image_config_run.
  split;
    match goal with
    | |- context [rendered ?a ?b ?p ?s] =>
        pose proof (rendered_frame a b p s) as (? & _ & ?)
    end; eauto.
Qed.

(** X8. Whether it returns or raises, a render routine leaves the file
    system as it is and changes nothing of the object but the two held
    texts. *)
Theorem render_frame (mbrid hypervisor kernel initrd : string) (st : state) :
  let ri := setup_install_image_config mbrid hypervisor kernel initrd st in
  let rl := setup_live_image_config mbrid hypervisor kernel initrd st in
  (fs ri.2 = fs st
   ∧ self ri.2
     = with_texts (config (self ri.2)) (config_message (self ri.2)) (self st))
  ∧ (fs rl.2 = fs st
     ∧ self rl.2
       = with_texts (config (self rl.2)) (config_message (self rl.2))
           (self st)).
Proof.
  cbv zeta.
  rewrite setup_install_image_config_run, setup_live_image_config_run.
  split.
  - pose proof (rendered_frame (install_main_template st)
      (get_install_message_template (isolinux (self st)))
      (install_render_parameters (self st) hypervisor kernel initrd)
      {| self := self st; fs := fs st;
         log := (log st
                 ++ ["Creating isolinux install config file from template"])
                ++ [if multiboot (self st)
                    then "--> Using multiboot install template"
                    else "--> Using install template"] |}) as (? & _ & ?).
    done.
  - pose proof (rendered_frame (live_main_template st)
      (get_message_template (isolinux (self st)))
      (live_render_parameters (self st) hypervisor kernel initrd)
      {| self := self st; fs := fs st;
         log := (log st
                 ++ ["Creating isolinux live ISO config file from template"])
                ++ [if multiboot (self st)
                    then "--> Using multiboot standard ISO template"
                    else "--> Using standard ISO template"] |}) as (? & _ & ?).
    done.
Qed.

Lemma rendered_twice (main msg : Template) (p : gmap string Py.value)
    (st0 st1 : state) :
  self st1 = self (rendered main msg p st0).2 →
  fs st1 = fs (rendered main msg p st0).2 →
  (rendered main msg p st1).1 = (rendered main msg p st0).1
  ∧ self (rendered main msg p st1).2 = self (rendered main msg p st0).2
  ∧ fs (rendered main msg p st1).2 = fs (rendered main msg p st0).2.
Proof.
  unfold rendered. destruct (substitute main p) as [c|e]; cbn.
  - destruct (substitute msg p) as [m|e]; cbn; intros -> ->; by cbn.
  - by intros -> ->.
Qed.

(** X9. A render routine run twice in a row with the same arguments ends
    as the first run did: the same outcome, the same object, the same file
    system. The texts are replaced, never appended to. *)
Theorem render_twice (mbrid hypervisor kernel initrd : string) (st : state) :
  let ri := setup_install_image_config mbrid hypervisor kernel initrd st in
  let ri' := setup_install_image_config mbrid hypervisor kernel initrd ri.2 in
  let rl := setup_live_image_config mbrid hypervisor kernel initrd st in
  let rl' := setup_live_image_config mbrid hypervisor kernel initrd rl.2 in
  (ri'.1 = ri.1 ∧ self ri'.2 = self ri.2 ∧ fs ri'.2 = fs ri.2)
  ∧ (rl'.1 = rl.1 ∧ self rl'.2 = self rl.2 ∧ fs rl'.2 = fs rl.2).
Proof.
  cbv zeta.
  destruct (render_fields mbrid hypervisor kernel initrd st)
    as [(Hfi & ci & mi & Hsi) (Hfl & cl & ml & Hsl)].
  split.
  - remember (setup_install_image_config mbrid hypervisor kernel initrd st)
      as r eqn:Hr.
    rewrite (setup_install_image_config_run _ _ _ _ r.2).
    assert (install_main_template r.2 = install_main_template st) as ->
      by (unfold install_main_template, have_theme; rewrite Hsi, Hfi;
          reflexivity).
    assert (get_install_message_template (isolinux (self r.2))
            = get_install_message_template (isolinux (self st))) as ->
      by (by rewrite Hsi).
    assert (install_render_parameters (self r.2) hypervisor kernel initrd
            = install_render_parameters (self st) hypervisor kernel initrd)
      as -> by (by rewrite Hsi).
    rewrite setup_install_image_config_run in Hr. subst r.
    by apply rendered_twice.
  - remember (setup_live_image_config mbrid hypervisor kernel initrd st)
      as r eqn:Hr.
    rewrite (setup_live_image_config_run _ _ _ _ r.2).
    assert (live_main_template r.2 = live_main_template st) as ->
      by (unfold live_main_template, have_theme; rewrite Hsl, Hfl;
          reflexivity).
    assert (get_message_template (isolinux (self r.2))
            = get_message_template (isolinux (self st))) as ->
      by (by rewrite Hsl).
    assert (live_render_parameters (self r.2) hypervisor kernel initrd
            = live_render_parameters (self st) hypervisor kernel initrd)
      as -> by (by rewrite Hsl).
    rewrite setup_live_image_config_run in Hr. subst r.
    by apply rendered_twice.
Qed.

Lemma substitute_uses_only (keys : list string) (t : Template)
    (p : gmap string Py.value) :
  uses_only keys t →
  (∀ k, k ∈ keys → is_Some (p !! k)) →
  ∃ out, substitute t p = Return out.
Proof.
  intros Ht Hp. induction Ht as [|seg t Hseg _ IH]; simpl; [eauto|].
  destruct IH as [out ->].
  destruct seg as [s|k|]; [eauto| |done].
  destruct (Hp k Hseg) as [v ->]. eauto.
Qed.

Lemma substitute_missing (t : Template) (p : gmap string Py.value)
    (k : string) :
  Named k ∈ t → p !! k = None → ∃ e, substitute t p = Raise e.
Proof.
  intros Hin Hk. induction t as [|seg t IH]; [by apply elem_of_nil in Hin|].
  apply elem_of_cons in Hin as [<-|Hin]; simpl.
  - rewrite Hk. eauto.
  - destruct (IH Hin) as [e He]. rewrite He.
    destruct seg as [s|k'|]; [eauto| |eauto].
    destruct (p !! k'); eauto.
Qed.

Lemma standard_keys_present (o : BootLoaderConfigIsoLinux)
    (hypervisor kernel initrd key : string) :
  key ∈ standard_keys →
  is_Some (install_render_parameters o hypervisor kernel initrd !! key)
  ∧ is_Some (live_render_parameters o hypervisor kernel initrd !! key).
Proof.
  intros Hkey.
  assert (key ≠ "hypervisor") as Hne.
  { intros ->. unfold standard_keys in Hkey.
    repeat (apply elem_of_cons in Hkey as [Hkey|Hkey]; [discriminate|]).
    by apply elem_of_nil in Hkey. }
  destruct (render_parameters_lookup o hypervisor kernel initrd key Hne)
    as [-> ->].
  unfold standard_keys in Hkey.
  unfold install_parameters, live_parameters.
  repeat (apply elem_of_cons in Hkey as [->|Hkey];
          [split; by simplify_map_eq|]).
  by apply elem_of_nil in Hkey.
Qed.

(** X10. Templates that are well formed and name only the eight keys of
    the parameter dict always render: the routine returns and holds both
    texts. *)
Theorem standard_templates_render (mbrid hypervisor kernel initrd : string)
    (st : state) :
  (uses_only standard_keys (install_main_template st) →
   uses_only standard_keys
     (get_install_message_template (isolinux (self st))) →
   ∃ st', setup_install_image_config mbrid hypervisor kernel initrd st
          = (Return tt, st')
          ∧ is_Some (config (self st'))
          ∧ is_Some (config_message (self st')))
  ∧ (uses_only standard_keys (live_main_template st) →
     uses_only standard_keys (get_message_template (isolinux (self st))) →
     ∃ st', setup_live_image_config mbrid hypervisor kernel initrd st
            = (Return tt, st')
            ∧ is_Some (config (self st'))
            ∧ is_Some (config_message (self st'))).
Proof.
  split; intros Hmain Hmsg.
  - destruct (substitute_uses_only _ _
                (install_render_parameters (self st) hypervisor kernel initrd)
                Hmain) as [c Hc];
      [intros key Hk; eapply proj1, standard_keys_present, Hk|].
    destruct (substitute_uses_only _ _
                (install_render_parameters (self st) hypervisor kernel initrd)
                Hmsg) as [m Hm];
      [intros key Hk; eapply proj1, standard_keys_present, Hk|].
    rewrite setup_install_image_config_run. unfold rendered.
    rewrite Hc, Hm. eexists. split; [reflexivity|].
    cbn [self with_self with_texts config config_message]. eauto.
  - destruct (substitute_uses_only _ _
                (live_render_parameters (self st) hypervisor kernel initrd)
                Hmain) as [c Hc];
      [intros key Hk; eapply proj2, standard_keys_present, Hk|].
    destruct (substitute_uses_only _ _
                (live_render_parameters (self st) hypervisor kernel initrd)
                Hmsg) as [m Hm];
      [intros key Hk; eapply proj2, standard_keys_present, Hk|].
    rewrite setup_live_image_config_run. unfold rendered.
    rewrite Hc, Hm. eexists. split; [reflexivity|].
    cbn [self with_self with_texts config config_message]. eauto.
Qed.

(** X11. A main template that names a placeholder the parameter map does
    not hold makes the render raise a template error, and both held texts
    stay as they were. *)
Theorem missing_placeholder_in_main_template
    (mbrid hypervisor kernel initrd key : string) (st : state) :
  (Named key ∈ install_main_template st →
   install_render_parameters (self st) hypervisor kernel initrd !! key
   = None →
   ∃ e st', setup_install_image_config mbrid hypervisor kernel initrd st
            = (Raise (template_error e), st')
            ∧ config (self st') = config (self st)
            ∧ config_message (self st') = config_message (self st))
  ∧ (Named key ∈ live_main_template st →
     live_render_parameters (self st) hypervisor kernel initrd !! key
     = None →
     ∃ e st', setup_live_image_config mbrid hypervisor kernel initrd st
              = (Raise (template_error e), st')
              ∧ config (self st') = config (self st)
              ∧ config_message (self st') = config_message (self st)).
Proof.
  split; intros Hin Hnone.
  - destruct (substitute_missing _ _ _ Hin Hnone) as [e He].
    rewrite setup_install_image_config_run. unfold rendered.
    rewrite He. exists e. eexists. split; [reflexivity|]. by cbn [self].
  - destruct (substitute_missing _ _ _ Hin Hnone) as [e He].
    rewrite setup_live_image_config_run. unfold rendered.
    rewrite He. exists e. eexists. split; [reflexivity|]. by cbn [self].
Qed.

Lemma write_both (st : state) (c m : string) :
  let dir := _get_iso_boot_path (self st) in
  config (self st) = Some c → c ≠ "" →
  config_message (self st) = Some m → m ≠ "" →
  isdir (fs st) (dir +:+ "/isolinux.cfg") = false →
  isdir (fs st) (dir +:+ "/isolinux.msg") = false →
  (∀ x, fs st !! dir ≠ Some (File x)) →
  ∃ st', write st = (Return tt, st')
         ∧ fs st' !! (dir +:+ "/isolinux.cfg") = Some (File c)
         ∧ fs st' !! (dir +:+ "/isolinux.msg") = Some (File m).
Proof.
  intros dir Hc Hcne Hm Hmne Hcfg Hmsg Hdir.
  pose proof (iso_boot_path_plain (self st)) as Hplain.
  assert (Py.dirname (dir +:+ "/isolinux.cfg") = dir) as Hdc
    by (by apply dirname_plain).
  assert (Py.dirname (dir +:+ "/isolinux.msg") = dir) as Hdm
    by (by apply dirname_plain).
  assert (dir +:+ "/isolinux.cfg" ≠ dir +:+ "/isolinux.msg") as Hcm
    by (intros H%append_inv_head; discriminate).
  assert (dir ≠ dir +:+ "/isolinux.cfg") as Hdcfg
    by (intros H; symmetry in H; by apply append_ne_self in H).
  assert (dir ≠ dir +:+ "/isolinux.msg") as Hdmsg
    by (intros H; symmetry in H; by apply append_ne_self in H).
  unfold write, log_info, get_self, Path_create, mbind, M_bind, mret, M_ret.
  cbn -[_get_iso_boot_path open_write Py.truthy].
  fold dir. rewrite Hc, Hm.
  assert (Py.truthy (Some c) = true) as ->
    by (simpl; by destruct (String.eqb_spec c "")).
  assert (Py.truthy (Some m) = true) as ->
    by (simpl; by destruct (String.eqb_spec m "")).
  cbn -[_get_iso_boot_path open_write].
  destruct (fs st !! dir) as [[x|]|] eqn:Ed; [by destruct (Hdir x)| |].
  - rewrite open_write_ok;
      [|done|cbn [fs]; rewrite Hdc; unfold isdir; by rewrite Ed].
    rewrite open_write_ok.
    + eexists. split; [done|]. cbn [fs with_fs].
      by rewrite lookup_insert_ne, !lookup_insert_eq.
    + cbn [fs with_fs]. by rewrite isdir_insert_file, decide_False.
    + cbn [fs with_fs]. rewrite Hdm, isdir_insert_file, decide_False by done.
      unfold isdir. by rewrite Ed.
  - rewrite open_write_ok.
    + rewrite open_write_ok.
      * eexists. split; [done|]. cbn [fs with_fs].
        by rewrite lookup_insert_ne, !lookup_insert_eq.
      * cbn [fs with_fs].
        rewrite isdir_insert_file, decide_False by done.
        by rewrite isdir_insert_dir, decide_False.
      * cbn [fs with_fs].
        rewrite Hdm, isdir_insert_file, decide_False by done.
        by rewrite isdir_insert_dir, decide_True.
    + cbn [fs with_fs]. by rewrite isdir_insert_dir, decide_False.
    + cbn [fs with_fs]. by rewrite Hdc, isdir_insert_dir, decide_True.
Qed.

(** X12. A render followed by [write] puts the two renderings on disk:
    when both templates substitute to texts that are not empty, and
    neither target path is a directory nor the boot path a regular file,
    the sequence returns and the two files hold the two renderings. *)
Theorem render_then_write (mbrid hypervisor kernel initrd : string)
    (st : state) (c m : string) :
  let dir := _get_iso_boot_path (self st) in
  c ≠ "" → m ≠ "" →
  isdir (fs st) (dir +:+ "/isolinux.cfg") = false →
  isdir (fs st) (dir +:+ "/isolinux.msg") = false →
  (∀ x, fs st !! dir ≠ Some (File x)) →
  (substitute (install_main_template st)
     (install_render_parameters (self st) hypervisor kernel initrd)
   = Return c →
   substitute (get_install_message_template (isolinux (self st)))
     (install_render_parameters (self st) hypervisor kernel initrd)
   = Return m →
   let r := (setup_install_image_config mbrid hypervisor kernel initrd ;;
             write) st in
   r.1 = Return tt
   ∧ fs r.2 !! (dir +:+ "/isolinux.cfg") = Some (File c)
   ∧ fs r.2 !! (dir +:+ "/isolinux.msg") = Some (File m))
  ∧ (substitute (live_main_template st)
       (live_render_parameters (self st) hypervisor kernel initrd)
     = Return c →
     substitute (get_message_template (isolinux (self st)))
       (live_render_parameters (self st) hypervisor kernel initrd)
     = Return m →
     let r := (setup_live_image_config mbrid hypervisor kernel initrd ;;
               write) st in
     r.1 = Return tt
     ∧ fs r.2 !! (dir +:+ "/isolinux.cfg") = Some (File c)
     ∧ fs r.2 !! (dir +:+ "/isolinux.msg") = Some (File m)).
Proof.
  intros dir Hcne Hmne Hcfg Hmsg Hdir.
  split; intros Hc Hm; cbv zeta; unfold mbind, M_bind.
  - rewrite setup_install_image_config_run. unfold rendered.
    rewrite Hc, Hm.
    match goal with
    | |- context [write ?s] =>
        destruct (write_both s c m) as (st' & -> & H1 & H2); try done
    end.
  - rewrite setup_live_image_config_run. unfold rendered.
    rewrite Hc, Hm.
    match goal with
    | |- context [write ?s] =>
        destruct (write_both s c m) as (st' & -> & H1 & H2); try done
    end.
Qed.

(** ** Staging, continued *)

(** X13. After the wipe and the copy loop, on a file system where no
    candidate is a directory, the staged path of a required file name
    holds the file of the later candidate directory if there is one, else
    the file of the earlier one, else nothing, whatever was staged under
    that name before. *)
Theorem staged_file_choice (lookup : string) (st : state) (name : string) :
  name ∈ syslinux_file_names →
  (∀ d n, d ∈ syslinux_dirs → n ∈ syslinux_file_names →
          fs st !! (lookup +:+ d +:+ n) ≠ Some Directory) →
  ∃ st',
    (loader_data ← prepare_loader_data lookup;
     copy_syslinux_files lookup loader_data) st = (Return tt, st')
    ∧ fs st' !! ((lookup +:+ "/image/loader/") +:+ name)
      = staged_choice lookup (fs st) name None.
Proof.
  intros Hname Hnodir.
  destruct (staging_run lookup st Hnodir) as (s1 & st' & Hprep & Hrun & Hfs & Hsrc).
  destruct (prepare_loader_data_fs lookup st) as (s1' & Hprep' & _ & Hin).
  rewrite Hprep in Hprep'. injection Hprep' as <-.
  exists st'. split; [done|].
  rewrite Hfs, stage_all_choice by done.
  rewrite Hin.
  - unfold staged_choice. rewrite !Hsrc; [done| |]; unfold syslinux_dirs.
    + by left.
    + apply elem_of_cons; right. by left.
  - apply prefix_append.
  - apply append_ne_self.
    destruct (proj1 (Forall_forall _ _) syslinux_file_names_good name Hname).
    done.
Qed.

(** X14. After the wipe and the copy loop the staging directory holds
    nothing but required loader files: every other path below it is
    gone. *)
Theorem staging_directory_rebuilt (lookup : string) (st : state)
    (k : string) :
  (∀ d n, d ∈ syslinux_dirs → n ∈ syslinux_file_names →
          fs st !! (lookup +:+ d +:+ n) ≠ Some Directory) →
  String.prefix (lookup +:+ "/image/loader/") k = true →
  k ≠ lookup +:+ "/image/loader/" →
  (∀ n, n ∈ syslinux_file_names → k ≠ (lookup +:+ "/image/loader/") +:+ n) →
  ∃ st',
    (loader_data ← prepare_loader_data lookup;
     copy_syslinux_files lookup loader_data) st = (Return tt, st')
    ∧ fs st' !! k = None.
Proof.
  intros Hnodir Hpre Hne Hother.
  destruct (staging_run lookup st Hnodir) as (s1 & st' & Hprep & Hrun & Hfs & Hsrc).
  destruct (prepare_loader_data_fs lookup st) as (s1' & Hprep' & _ & Hin).
  rewrite Hprep in Hprep'. injection Hprep' as <-.
  exists st'. split; [done|].
  rewrite Hfs, stage_all_frame by done. by apply Hin.
Qed.

(** X15. The wipe and the copy loop leave every path as it was that is
    neither below the staging directory nor a path the staging directory
    starts with (its ancestors, which creating it may have to make); the
    candidate files are read, never changed. *)
Theorem staging_leaves_outside (lookup : string) (st : state) (k : string) :
  (∀ d n, d ∈ syslinux_dirs → n ∈ syslinux_file_names →
          fs st !! (lookup +:+ d +:+ n) ≠ Some Directory) →
  String.prefix (lookup +:+ "/image/loader/") k = false →
  String.prefix k (lookup +:+ "/image/loader/") = false →
  ∃ st',
    (loader_data ← prepare_loader_data lookup;
     copy_syslinux_files lookup loader_data) st = (Return tt, st')
    ∧ fs st' !! k = fs st !! k.
Proof.
  intros Hnodir Hpre _.
  destruct (staging_frame lookup st Hnodir) as (st' & Hrun & _ & Hout).
  exists st'. split; [done|]. by apply Hout.
Qed.

Section StagingErrors.

Variable lookup : string.
Variable f0 : gmap string node.

Lemma copy_body_raise (st : state) (n d : string) :
  staging_inv lookup f0 (fs st) →
  good_name n →
  d ∈ syslinux_dirs →
  f0 !! (lookup +:+ d +:+ n) = Some Directory →
  (b ← os_path_exists (Py.join "" [lookup; d; n]);
   if b : bool
   then shutil_copy (Py.join "" [lookup; d; n]) (lookup +:+ "/image/loader/")
   else mret tt) st
  = (Raise (IsADirectoryError (lookup +:+ d +:+ n)), st).
Proof.
  intros (Hld & Hsrc & Hstaged) [Hslash Hne] Hd Hdir.
  rewrite join3. unfold os_path_exists, shutil_copy,
    mbind, M_bind, mret, M_ret.
  rewrite <- (Hsrc d n Hd) in Hdir.
  rewrite bool_decide_eq_true_2 by (rewrite Hdir; eauto).
  rewrite Hld, source_basename, loader_data_join by done.
  destruct (String.eqb_spec (lookup +:+ d +:+ n)
              ((lookup +:+ "/image/loader/") +:+ n)) as [Heq|_];
    [by apply source_not_staged in Heq|].
  by rewrite Hdir.
Qed.

(** A loop stops at the first element whose body raises. *)
Lemma for_each_raise {A} (P : gmap string node → Prop) (R : exn → Prop)
    (bad : A → Prop) (body : A → M unit) (l : list A) (st : state) :
  (∀ s x, x ∈ l → P (fs s) →
          (∃ s', body x s = (Return tt, s') ∧ P (fs s'))
          ∨ (∃ e s', body x s = (Raise e, s') ∧ R e)) →
  (∀ s x, x ∈ l → bad x → P (fs s) →
          ∃ e s', body x s = (Raise e, s') ∧ R e) →
  (∃ x, x ∈ l ∧ bad x) →
  P (fs st) →
  ∃ e st', for_each l body st = (Raise e, st') ∧ R e.
Proof.
  revert st. induction l as [|x l IH]; intros st Hstep Hbad (y & Hy & By) HP.
  { by apply elem_of_nil in Hy. }
  simpl. unfold mbind, M_bind.
  destruct (Hstep st x) as [(s' & Hrun & HP')|(e & s' & Hrun & HR)];
    [by left | done | |].
  - rewrite Hrun. apply elem_of_cons in Hy as [->|Hy].
    + destruct (Hbad st x) as (e & s'' & Hrun' & _); [by left | done | done |].
      congruence.
    + apply IH; [| |by exists y|done].
      * intros s z Hz. apply Hstep. by right.
      * intros s z Hz. apply Hbad. by right.
  - rewrite Hrun. eauto.
Qed.

Lemma inner_loop_outcome (st : state) (n : string) :
  staging_inv lookup f0 (fs st) →
  good_name n →
  (∃ s', for_each syslinux_dirs (fun syslinux_dir =>
           let syslinux_file := Py.join "" [lookup; syslinux_dir; n] in
           b ← os_path_exists syslinux_file;
           if b : bool
           then shutil_copy syslinux_file (lookup +:+ "/image/loader/")
           else mret tt) st = (Return tt, s')
         ∧ staging_inv lookup f0 (fs s'))
  ∨ (∃ e s', for_each syslinux_dirs (fun syslinux_dir =>
               let syslinux_file := Py.join "" [lookup; syslinux_dir; n] in
               b ← os_path_exists syslinux_file;
               if b : bool
               then shutil_copy syslinux_file (lookup +:+ "/image/loader/")
               else mret tt) st = (Raise e, s')
             ∧ candidate_is_directory lookup f0 e).
Proof.
  intros Hinv Hn.
  destruct (decide (Exists (fun d => f0 !! (lookup +:+ d +:+ n)
                                     = Some Directory) syslinux_dirs))
    as [Hbad%Exists_exists|Hgood];
    [|rewrite Exists_exists in Hgood].
  - right.
    apply (for_each_raise (staging_inv lookup f0)
             (candidate_is_directory lookup f0)
             (fun d => f0 !! (lookup +:+ d +:+ n) = Some Directory));
      [| |done|done].
    + intros s d Hd Hs.
      destruct (decide (f0 !! (lookup +:+ d +:+ n) = Some Directory))
        as [Hdir|Hnodir].
      * right. eexists _, _. split; [by apply copy_body_raise|].
        by exists d, n.
      * left. destruct (copy_body_run lookup f0 s n d) as (s' & Hrun & Hfs);
          try done.
        exists s'. split; [exact Hrun|]. rewrite Hfs.
        by apply staging_inv_copy_step.
    + intros s d Hd Hdir Hs. eexists _, _.
      split; [by apply copy_body_raise|]. by exists d, n.
  - left.
    destruct (for_each_fold (staging_inv lookup f0)
                (fun f d => copy_step lookup f0 n d f)
                (fun syslinux_dir =>
                   let syslinux_file :=
                     Py.join "" [lookup; syslinux_dir; n] in
                   b ← os_path_exists syslinux_file;
                   if b : bool
                   then shutil_copy syslinux_file
                          (lookup +:+ "/image/loader/")
                   else mret tt) syslinux_dirs st)
      as (s' & Hrun & _ & Hinv'); [| |done|by exists s'].
    + intros f d Hd Hf. by apply staging_inv_copy_step.
    + intros s d Hd Hs. apply copy_body_run; try done.
      intros Hdir. apply Hgood. by exists d.
Qed.

Lemma copy_loop_raise (ns : list string) (st : state) :
  Forall good_name ns →
  (∃ d n, d ∈ syslinux_dirs ∧ n ∈ ns
          ∧ f0 !! (lookup +:+ d +:+ n) = Some Directory) →
  staging_inv lookup f0 (fs st) →
  ∃ e st',
    for_each ns (fun syslinux_file_name =>
      for_each syslinux_dirs (fun syslinux_dir =>
        let syslinux_file :=
          Py.join "" [lookup; syslinux_dir; syslinux_file_name] in
        b ← os_path_exists syslinux_file;
        if b : bool
        then shutil_copy syslinux_file (lookup +:+ "/image/loader/")
        else mret tt)) st = (Raise e, st')
    ∧ candidate_is_directory lookup f0 e.
Proof.
  intros Hgood (d & n & Hd & Hn & Hdir) Hinv.
  rewrite Forall_forall in Hgood.
  apply (for_each_raise (staging_inv lookup f0)
           (candidate_is_directory lookup f0)
           (fun n => ∃ d, d ∈ syslinux_dirs
                          ∧ f0 !! (lookup +:+ d +:+ n) = Some Directory));
    [| |by exists n; split; [|exists d]|done].
  - intros s m Hm Hs. apply inner_loop_outcome; auto.
  - intros s m Hm (d' & Hd' & Hdir') Hs.
    destruct (inner_loop_outcome s m) as [(s' & Hrun & _)|?];
      [done | by apply Hgood | | done].
    exfalso.
    destruct (for_each_raise (staging_inv lookup f0)
                (candidate_is_directory lookup f0)
                (fun d => f0 !! (lookup +:+ d +:+ m) = Some Directory)
                (fun syslinux_dir =>
                   let syslinux_file :=
                     Py.join "" [lookup; syslinux_dir; m] in
                   b ← os_path_exists syslinux_file;
                   if b : bool
                   then shutil_copy syslinux_file
                          (lookup +:+ "/image/loader/")
                   else mret tt) syslinux_dirs s)
      as (e & s'' & Hrun' & _); [| |by exists d'|done|congruence].
    + intros s0 d0 Hd0 Hs0.
      destruct (decide (f0 !! (lookup +:+ d0 +:+ m) = Some Directory))
        as [Hdir0|Hnodir0].
      * right. eexists _, _.
        split; [apply copy_body_raise; auto|]. by exists d0, m.
      * left.
        destruct (copy_body_run lookup f0 s0 m d0) as (s2 & Hrun0 & Hfs);
          auto.
        exists s2. split; [exact Hrun0|]. rewrite Hfs.
        apply staging_inv_copy_step; auto.
    + intros s0 d0 Hd0 Hdir0 Hs0. eexists _, _.
      split; [apply copy_body_raise; auto|]. by exists d0, m.
Qed.

End StagingErrors.

(** A candidate path that is a directory stops the copy loop: it raises
    IsADirectoryError for a candidate path that is a directory. *)
Lemma staging_directory_candidate (lookup : string) (st : state) :
  (∃ d n, d ∈ syslinux_dirs ∧ n ∈ syslinux_file_names
          ∧ fs st !! (lookup +:+ d +:+ n) = Some Directory) →
  ∃ d n st',
    d ∈ syslinux_dirs
    ∧ (loader_data ← prepare_loader_data lookup;
       copy_syslinux_files lookup loader_data) st
      = (Raise (IsADirectoryError (lookup +:+ d +:+ n)), st')
    ∧ fs st !! (lookup +:+ d +:+ n) = Some Directory.
Proof.
  intros (d & n & Hd & Hn & Hdir).
  destruct (prepare_loader_data_run lookup st) as (s1 & Hprep & Hinv & Hsrc).
  destruct (copy_loop_raise lookup (fs s1) syslinux_file_names s1)
    as (e & st' & Hrun & d' & n' & Hd' & -> & Hdir');
    [apply syslinux_file_names_good | | done |].
  { exists d, n. by rewrite Hsrc. }
  exists d', n', st'. split; [done|].
  unfold mbind, M_bind. rewrite Hprep.
  split; [exact Hrun|]. by rewrite <- Hsrc.
Qed.

(** X16. A directory among the candidates stops staging before any
    external tool is run: both entry points raise IsADirectoryError for a
    candidate path that is a directory, whatever the tools and the mbrid
    are. *)
Theorem staging_stops_at_directory (lookup_path : option string)
    (st : state) :
  let lookup := if Py.truthy lookup_path then default "" lookup_path
                else root_dir (base (self st)) in
  (∃ d n, d ∈ syslinux_dirs ∧ n ∈ syslinux_file_names
          ∧ fs st !! (lookup +:+ d +:+ n) = Some Directory) →
  ∃ d n st',
    d ∈ syslinux_dirs
    ∧ fs st !! (lookup +:+ d +:+ n) = Some Directory
    ∧ ∀ t mbrid,
        setup_install_boot_images t mbrid lookup_path st
        = (Raise (IsADirectoryError (lookup +:+ d +:+ n)), st')
        ∧ setup_live_boot_images t mbrid lookup_path st
          = (Raise (IsADirectoryError (lookup +:+ d +:+ n)), st').
Proof.
  intros lookup (d & n & Hd & Hn & Hdir).
  destruct (prepare_loader_data_run lookup st) as (s1 & Hprep & Hinv & Hsrc).
  destruct (copy_loop_raise lookup (fs s1) syslinux_file_names s1)
    as (e & st' & Hrun & d' & n' & Hd' & -> & Hdir');
    [apply syslinux_file_names_good | | done |].
  { exists d, n. by rewrite Hsrc. }
  exists d', n', st'. split; [done|]. split; [by rewrite <- Hsrc|].
  intros t mbrid.
  assert (setup_install_boot_images t mbrid lookup_path st
          = (Raise (IsADirectoryError (lookup +:+ d' +:+ n')), st')) as H;
    [|split; [exact H | exact H]].
  unfold setup_install_boot_images, _copy_loader_data_to_boot_directory.
  erewrite bind_run by reflexivity. cbv beta zeta. fold lookup.
  erewrite bind_run by exact Hprep. cbv beta.
  unfold mbind, M_bind.
  change (copy_syslinux_files lookup (lookup +:+ "/image/loader/") s1)
    with (for_each syslinux_file_names (fun syslinux_file_name =>
            for_each syslinux_dirs (fun syslinux_dir =>
              let syslinux_file :=
                Py.join "" [lookup; syslinux_dir; syslinux_file_name] in
              b ← os_path_exists syslinux_file;
              if b : bool
              then shutil_copy syslinux_file (lookup +:+ "/image/loader/")
              else mret tt)) s1).
  by rewrite Hrun.
Qed.

(** X17. No lookup path, an empty lookup path and the root directory as
    lookup path are the same to staging: all three stage from the root
    directory of the build. *)
Theorem lookup_path_defaults_to_root (t : Tools) (mbrid : string)
    (st : state) :
  setup_install_boot_images t mbrid (Some "") st
  = setup_install_boot_images t mbrid None st
  ∧ setup_install_boot_images t mbrid (Some (root_dir (base (self st)))) st
    = setup_install_boot_images t mbrid None st.
Proof.
  split; [reflexivity|].
  unfold setup_install_boot_images, _copy_loader_data_to_boot_directory.
  erewrite !bind_run by reflexivity. cbv beta zeta.
  unfold Py.truthy. cbn [default from_option id].
  by destruct (String.eqb (root_dir (base (self st))) "").
Qed.

(** ** Writing twice *)

Lemma write_halves (st : state) :
  write st
  = (write_config (self st) ;; write_message (self st))
      {| self := self st; fs := fs st;
         log := log st ++ ["Writing isolinux.cfg file"] |}.
Proof. reflexivity. Qed.

Lemma open_write_again (path c : string) (st st' : state) :
  open_write path c st = (Return tt, st') →
  open_write path c st' = (Return tt, st').
Proof.
  unfold open_write. intros H.
  destruct (isdir (fs st) path) eqn:E1; [done|].
  destruct (String.eqb (Py.dirname path) "") eqn:E3; simpl in *.
  - simplify_eq. cbn [fs with_fs].
    rewrite isdir_insert_file, decide_True by done.
    unfold with_fs; cbn. by rewrite insert_insert_eq.
  - destruct (isdir (fs st) (Py.dirname path)) eqn:E2; [|done].
    simplify_eq. cbn [fs with_fs].
    rewrite isdir_insert_file, decide_True by done.
    rewrite isdir_insert_file. case_decide as Hd.
    + rewrite <- Hd in E2. congruence.
    + rewrite E2. unfold with_fs; cbn. by rewrite insert_insert_eq.
Qed.

Lemma open_write_raise (path c : string) (st st' : state) (e : exn) :
  open_write path c st = (Raise e, st') → st' = st.
Proof.
  unfold open_write. intros H. repeat case_match; by simplify_eq.
Qed.

Lemma open_write_fs (path c : string) (s t : state) :
  fs s = fs t →
  (open_write path c s).1 = (open_write path c t).1
  ∧ fs (open_write path c s).2 = fs (open_write path c t).2.
Proof.
  intros H. unfold open_write. rewrite H.
  destruct (isdir (fs t) path); [done|].
  destruct (_ || _); cbn; by rewrite ?H.
Qed.

Lemma open_write_inv (path c : string) (s s' : state) :
  open_write path c s = (Return tt, s') →
  fs s' = <[path := File c]> (fs s)
  ∧ (Py.dirname path ≠ "" → isdir (fs s) (Py.dirname path) = true).
Proof.
  unfold open_write. intros H.
  destruct (isdir (fs s) path); [done|].
  destruct (String.eqb_spec (Py.dirname path) ""); simpl in *.
  - simplify_eq. done.
  - destruct (isdir (fs s) (Py.dirname path)); [|done]. by simplify_eq.
Qed.

Lemma open_write_same (path c : string) (s : state) :
  fs s !! path = Some (File c) →
  isdir (fs s) (Py.dirname path) = true →
  (open_write path c s).1 = Return tt
  ∧ fs (open_write path c s).2 = fs s.
Proof.
  intros Hp Hd. unfold open_write, isdir in *. rewrite Hp.
  destruct (fs s !! Py.dirname path) as [[|]|]; try done.
  rewrite orb_true_r. cbn. split; [done|]. by apply insert_id.
Qed.

Lemma Path_create_exists (p : string) (s : state) :
  is_Some (fs s !! p) → Path_create p s = (Return tt, s).
Proof. intros [x Hx]. unfold Path_create. by rewrite Hx. Qed.

Lemma Path_create_run (p : string) (s : state) :
  ∃ s', Path_create p s = (Return tt, s')
        ∧ is_Some (fs s' !! p)
        ∧ (isdir (fs s) p = true → s' = s).
Proof.
  unfold Path_create, isdir. destruct (fs s !! p) eqn:E.
  - exists s. by rewrite E.
  - eexists. split; [done|]. cbn. rewrite lookup_insert_eq. split; eauto.
    done.
Qed.

Lemma isdir_true (f : gmap string node) (p : string) :
  isdir f p = true ↔ f !! p = Some Directory.
Proof.
  unfold isdir. destruct (f !! p) as [[|]|]; split; congruence.
Qed.

Section WriteTwice.

Variable o : BootLoaderConfigIsoLinux.

Let dir := _get_iso_boot_path o.
Let cfg := dir +:+ "/isolinux.cfg".
Let msg := dir +:+ "/isolinux.msg".

Lemma write_paths :
  Py.dirname cfg = dir ∧ Py.dirname msg = dir ∧ cfg ≠ msg
  ∧ dir ≠ cfg ∧ dir ≠ msg ∧ dir ≠ "".
Proof.
  pose proof (iso_boot_path_plain o) as Hplain.
  repeat split.
  - by apply dirname_plain.
  - by apply dirname_plain.
  - intros H%append_inv_head. discriminate.
  - intros H. symmetry in H. by apply append_ne_self in H.
  - intros H. symmetry in H. by apply append_ne_self in H.
  - apply Hplain.
Qed.

(** The config half, run again on the state it left or on a state that
    differs from it by the message file, does what it did. *)
Lemma config_half_again (c : string) (s s1 t : state) :
  (Path_create dir ;; open_write cfg c) s = (Return tt, s1) →
  (fs t = fs s1 ∨ ∃ m, fs t = <[msg := File m]> (fs s1)) →
  ((Path_create dir ;; open_write cfg c) t).1 = Return tt
  ∧ fs ((Path_create dir ;; open_write cfg c) t).2 = fs t.
Proof.
  destruct write_paths as (Hdc & Hdm & Hcm & Hdcfg & Hdmsg & Hne).
  unfold mbind, M_bind.
  destruct (Path_create_run dir s) as (s0 & -> & _ & _).
  intros [Hfs Hd]%open_write_inv Ht.
  rewrite Hdc in Hd. specialize (Hd Hne). apply isdir_true in Hd.
  assert (fs t !! dir = Some Directory ∧ fs t !! cfg = Some (File c))
    as [Htd Htc].
  { destruct Ht as [->| [m ->]]; rewrite Hfs.
    - by rewrite lookup_insert_ne, lookup_insert_eq.
    - rewrite !(lookup_insert_ne _ msg) by done.
      by rewrite lookup_insert_ne, lookup_insert_eq. }
  rewrite Path_create_exists by (rewrite Htd; eauto).
  apply open_write_same; [done|].
  rewrite Hdc. by apply isdir_true.
Qed.

Lemma write_halves_twice (s : state) :
  let W := write_config o ;; write_message o in
  (W (W s).2).1 = (W s).1 ∧ fs (W (W s).2).2 = fs (W s).2.
Proof.
  destruct write_paths as (Hdc & Hdm & Hcm & Hdcfg & Hdmsg & Hne).
  unfold write_config, write_message. cbv zeta. fold dir cfg msg.
  set (c := default "" (config o)). set (m := default "" (config_message o)).
  set (A := (Path_create dir ;; open_write cfg c) : M unit).
  assert (∀ e s1, A s = (Raise e, s1) → A s1 = (Raise e, s1)) as Araise.
  { intros e s1. subst A. unfold mbind, M_bind.
    destruct (Path_create_run dir s) as (s0 & -> & Hex & _).
    intros Hc1. apply open_write_raise in Hc1 as Hs. subst s1.
    rewrite Path_create_exists by done. by rewrite Hc1. }
  destruct (Py.truthy (config o)); destruct (Py.truthy (config_message o));
    unfold mbind, M_bind, mret, M_ret.
  - destruct (A s) as [[[]|e] s1] eqn:Hc1; cbn [fst snd].
    + destruct (open_write msg m s1) as [[[]|e] s2] eqn:Hm1; cbn [fst snd].
      * pose proof Hm1 as [Hfs2 _]%open_write_inv.
        destruct (config_half_again c s s1 s2 Hc1) as [Ho Hf]; [eauto|].
        fold A in Ho, Hf. destruct (A s2) as [r3 s3].
        cbn [fst snd] in Ho, Hf. subst r3.
        destruct (open_write_fs msg m s3 s2 Hf) as [H1 H2].
        rewrite (open_write_again _ _ _ _ Hm1) in H1, H2. done.
      * apply open_write_raise in Hm1 as Hs. subst s2.
        destruct (config_half_again c s s1 s1 Hc1) as [Ho Hf]; [eauto|].
        fold A in Ho, Hf. destruct (A s1) as [r3 s3].
        cbn [fst snd] in Ho, Hf. subst r3.
        destruct (open_write_fs msg m s3 s1 Hf) as [H1 H2].
        rewrite Hm1 in H1, H2. done.
    + by rewrite (Araise e s1 eq_refl).
  - destruct (A s) as [[[]|e] s1] eqn:Hc1; cbn [fst snd].
    + destruct (config_half_again c s s1 s1 Hc1) as [Ho Hf]; [eauto|].
      fold A in Ho, Hf. destruct (A s1) as [r3 s3].
      cbn [fst snd] in Ho, Hf. by subst r3.
    + by rewrite (Araise e s1 eq_refl).
  - destruct (open_write msg m s) as [[[]|e] s1] eqn:Hm1; cbn [fst snd].
    + by rewrite (open_write_again _ _ _ _ Hm1).
    + apply open_write_raise in Hm1 as Hs. subst s1. by rewrite Hm1.
  - done.
Qed.

End WriteTwice.

Lemma fs_only_bind (a b : M unit) :
  fs_only a → fs_only b → fs_only (a ;; b).
Proof.
  intros Ha Hb s t Hst. unfold mbind, M_bind.
  destruct (Ha s t Hst) as [H1 H2].
  destruct (a s) as [[[]|e] s1], (a t) as [[[]|e'] t1];
    cbn [fst snd] in *; try done.
  by apply Hb.
Qed.

Lemma keeps_self_bind (a b : M unit) :
  keeps_self a → keeps_self b → keeps_self (a ;; b).
Proof.
  intros Ha Hb s. unfold mbind, M_bind.
  specialize (Ha s). destruct (a s) as [[[]|e] s1]; cbn [fst snd] in *.
  - by rewrite Hb.
  - done.
Qed.

Lemma fs_only_open_write (p c : string) : fs_only (open_write p c).
Proof. intros s t. apply open_write_fs. Qed.

Lemma keeps_self_open_write (p c : string) : keeps_self (open_write p c).
Proof. intros s. unfold open_write. by repeat case_match. Qed.

Lemma fs_only_Path_create (p : string) : fs_only (Path_create p).
Proof.
  intros s t H. unfold Path_create. rewrite H.
  destruct (fs t !! p); cbn; by rewrite ?H.
Qed.

Lemma keeps_self_Path_create (p : string) : keeps_self (Path_create p).
Proof. intros s. unfold Path_create. by case_match. Qed.

Lemma write_halves_fs_only (o : BootLoaderConfigIsoLinux) :
  fs_only (write_config o ;; write_message o)
  ∧ keeps_self (write_config o ;; write_message o).
Proof.
  unfold write_config, write_message. cbv zeta. split.
  - apply fs_only_bind; case_match;
      repeat first [ apply fs_only_bind | apply fs_only_open_write
                   | apply fs_only_Path_create | done ].
  - apply keeps_self_bind; case_match;
      repeat first [ apply keeps_self_bind | apply keeps_self_open_write
                   | apply keeps_self_Path_create | done ].
Qed.

(** X18. [write] run twice in a row ends as the first run did: the same
    outcome, the same file system, the same object. What could not be
    written the first time cannot be written the second time, and what
    was written is written again with the same content. *)
Theorem write_twice (st : state) :
  let r := write st in
  let r' := write r.2 in
  r'.1 = r.1 ∧ fs r'.2 = fs r.2 ∧ self r'.2 = self r.2.
Proof.
  cbv zeta.
  destruct (write_halves_fs_only (self st)) as [Hfs Hself].
  set (s0 := {| self := self st; fs := fs st;
                log := log st ++ ["Writing isolinux.cfg file"] |}).
  set (W := write_config (self st) ;; write_message (self st)) in *.
  assert (write st = W s0) as -> by apply write_halves.
  assert (self (W s0).2 = self st) as Hs by apply (Hself s0).
  rewrite (write_halves (W s0).2). rewrite Hs. fold W.
  set (t := {| self := self st; fs := fs (W s0).2; log := _ |}).
  destruct (Hfs t (W s0).2 eq_refl) as [H1 H2].
  assert ((W (W s0).2).1 = (W s0).1 ∧ fs (W (W s0).2).2 = fs (W s0).2)
    as [H3 H4] by apply (write_halves_twice (self st) s0).
  rewrite H1, H2, H3, H4. split; [done|]. split; [done|].
  by rewrite (Hself t).
Qed.

(** ** The further properties on the concrete builds *)

(** Settles, on a concrete file system, that no candidate path is a
    directory, by going through the candidates. *)
Ltac no_directory_candidates :=
  let d := fresh "d" in
  let n := fresh "n" in
  let Hd := fresh "Hd" in
  let Hn := fresh "Hn" in
  intros d n Hd Hn;
  unfold syslinux_dirs in Hd; unfold syslinux_file_names in Hn;
  repeat (apply elem_of_cons in Hd as [->|Hd]);
  [| | by apply elem_of_nil in Hd];
  repeat (apply elem_of_cons in Hn as [->|Hn]);
  try (by apply elem_of_nil in Hn);
  vm_compute; discriminate.

Lemma render_success_witness :
  ∃ st',
    setup_install_image_config "0xffffffff" "xen.gz" "linux" "initrd"
      (Stock.fresh ∅) = (Return tt, st')
    ∧ config (self st')
      = Some ("default 0 append splash quiet loglevel=0 "
              +:+ "root=install:CDLABEL=INSTALL1")
    ∧ config_message (self st') = Some "Welcome to Install".
Proof.
  apply (proj1 (render_success "0xffffffff" "xen.gz" "linux" "initrd"
                  (Stock.fresh ∅) _ _)); reflexivity.
Defined.

Lemma standard_templates_render_witness :
  ∃ st',
    setup_install_image_config "0xffffffff" "xen.gz" "linux" "initrd"
      (Stock.fresh ∅) = (Return tt, st')
    ∧ is_Some (config (self st'))
    ∧ is_Some (config_message (self st')).
Proof.
  apply (proj1 (standard_templates_render "0xffffffff" "xen.gz" "linux"
                  "initrd" (Stock.fresh ∅)));
    vm_compute; repeat constructor.
Defined.

Lemma missing_placeholder_in_main_template_witness :
  ∃ e st',
    setup_live_image_config "0xffffffff" "xen.gz" "linux" "initrd"
      (Stock.fresh ∅) = (Raise (template_error e), st')
    ∧ config (self st') = config (self (Stock.fresh ∅))
    ∧ config_message (self st') = config_message (self (Stock.fresh ∅)).
Proof.
  apply (proj2 (missing_placeholder_in_main_template "0xffffffff" "xen.gz"
                  "linux" "initrd" "hypervisor" (Stock.fresh ∅))).
  - vm_compute. repeat constructor.
  - reflexivity.
Defined.

Lemma render_then_write_witness :
  let r := (setup_install_image_config "0xffffffff" "xen.gz" "linux" "initrd"
            ;; write) (Stock.fresh ∅) in
  r.1 = Return tt
  ∧ fs r.2 !! "/tmp/root/boot/x86_64/loader/isolinux.cfg"
    = Some (File ("default 0 append splash quiet loglevel=0 "
                  +:+ "root=install:CDLABEL=INSTALL1"))
  ∧ fs r.2 !! "/tmp/root/boot/x86_64/loader/isolinux.msg"
    = Some (File "Welcome to Install").
Proof.
  refine (proj1 (render_then_write "0xffffffff" "xen.gz" "linux" "initrd"
                   (Stock.fresh ∅) _ _ _ _ _ _ _) _ _);
    try reflexivity; discriminate.
Defined.

Lemma staged_file_choice_witness :
  ∃ st',
    (loader_data ← prepare_loader_data "/tmp/root";
     copy_syslinux_files "/tmp/root" loader_data)
      (Demo.holding None None Demo.loader_sources) = (Return tt, st')
    ∧ fs st' !! "/tmp/root/image/loader/menu.c32" = Some (File "menu").
Proof.
  apply (staged_file_choice "/tmp/root"
           (Demo.holding None None Demo.loader_sources) "menu.c32").
  - vm_compute. repeat constructor.
  - no_directory_candidates.
Defined.

Lemma staging_directory_rebuilt_witness :
  ∃ st',
    (loader_data ← prepare_loader_data "/tmp/root";
     copy_syslinux_files "/tmp/root" loader_data)
      (Demo.holding None None
         (<["/tmp/root/image/loader/bootlogo" := File "stale"]>
            Demo.loader_sources)) = (Return tt, st')
    ∧ fs st' !! "/tmp/root/image/loader/bootlogo" = None.
Proof.
  apply (staging_directory_rebuilt "/tmp/root"
           (Demo.holding None None
              (<["/tmp/root/image/loader/bootlogo" := File "stale"]>
                 Demo.loader_sources))
           "/tmp/root/image/loader/bootlogo").
  - no_directory_candidates.
  - reflexivity.
  - discriminate.
  - intros n Hn. unfold syslinux_file_names in Hn.
    repeat (apply elem_of_cons in Hn as [->|Hn]; [discriminate|]).
    by apply elem_of_nil in Hn.
Defined.

Lemma staging_leaves_outside_witness :
  ∃ st',
    (loader_data ← prepare_loader_data "/tmp/root";
     copy_syslinux_files "/tmp/root" loader_data)
      (Demo.holding None None Demo.loader_sources) = (Return tt, st')
    ∧ fs st' !! "/tmp/root/usr/share/syslinux/isolinux.bin"
      = fs (Demo.holding None None Demo.loader_sources)
          !! "/tmp/root/usr/share/syslinux/isolinux.bin".
Proof.
  apply (staging_leaves_outside "/tmp/root"
           (Demo.holding None None Demo.loader_sources)
           "/tmp/root/usr/share/syslinux/isolinux.bin").
  - no_directory_candidates.
  - reflexivity.
  - reflexivity.
Defined.

Lemma staging_stops_at_directory_witness :
  ∃ d n st',
    d ∈ syslinux_dirs
    ∧ fs (Stock.fresh Stock.broken_sources) !! ("/tmp/root" +:+ d +:+ n)
      = Some Directory
    ∧ ∀ t mbrid,
        setup_install_boot_images t mbrid None
          (Stock.fresh Stock.broken_sources)
        = (Raise (IsADirectoryError ("/tmp/root" +:+ d +:+ n)), st')
        ∧ setup_live_boot_images t mbrid None
            (Stock.fresh Stock.broken_sources)
          = (Raise (IsADirectoryError ("/tmp/root" +:+ d +:+ n)), st').
Proof.
  apply (staging_stops_at_directory None (Stock.fresh Stock.broken_sources)).
  exists "/usr/share/syslinux/", "ldlinux.c32".
  split; [vm_compute; repeat constructor|].
  split; [vm_compute; repeat constructor|reflexivity].
Defined.

(** ** Staging with failing tools *)

(** X19. The memtest copy is best effort: with no boot theme configured,
    no directory among the candidates and a sync that goes through, both
    staging entry points return even when every external command
    fails. *)
Theorem staging_survives_failed_commands (t : Tools) (mbrid : string)
    (lookup_path : option string) (st : state) :
  let lookup := if Py.truthy lookup_path then default "" lookup_path
                else root_dir (base (self st)) in
  Py.truthy (get_boot_theme (base (self st))) = false →
  (∀ d n, d ∈ syslinux_dirs → n ∈ syslinux_file_names →
          fs st !! (lookup +:+ d +:+ n) ≠ Some Directory) →
  (∀ command f, (execute t command f).1 = false) →
  (∀ source target options f,
     (sync_data t source target options f).1 = Return tt) →
  (setup_install_boot_images t mbrid lookup_path st).1 = Return tt
  ∧ (setup_live_boot_images t mbrid lookup_path st).1 = Return tt.
Proof.
  intros lookup Htheme Hnodir Hfail Hsync.
  assert ((setup_install_boot_images t mbrid lookup_path st).1 = Return tt)
    as H; [|split; exact H].
  destruct (staging_run lookup st Hnodir)
    as (s1 & s2 & Hprep & Hrun & _ & _).
  unfold setup_install_boot_images, _copy_loader_data_to_boot_directory.
  erewrite bind_run by reflexivity. cbv beta zeta. fold lookup.
  revert Hrun. unfold mbind at 1, M_bind at 1. rewrite Hprep. intros Hrun.
  erewrite bind_run by exact Hprep. cbv beta.
  erewrite bind_run by exact Hrun. cbv beta.
  rewrite Htheme.
  unfold Command_run, Path_create, DataSync_sync_data,
    mbind, M_bind, mret, M_ret.
  match goal with
  | |- context [execute t ?c ?f] =>
      pose proof (Hfail c f) as He; destruct (execute t c f) as [ok f1]
  end.
  cbn [fst] in He. subst ok. cbn [orb negb fs with_fs].
  destruct (f1 !! _get_iso_boot_path (self st)); cbn [fs with_fs];
    match goal with
    | |- context [sync_data t ?a ?b ?o ?f] =>
        pose proof (Hsync a b o f) as Hs;
        destruct (sync_data t a b o f) as [r f2]
    end; cbn [fst] in *; by subst r.
Qed.

Lemma staging_survives_failed_commands_witness :
  (setup_install_boot_images Demo.idle_tools "0xffffffff" None
     (Demo.holding None None Demo.loader_sources)).1 = Return tt
  ∧ (setup_live_boot_images Demo.idle_tools "0xffffffff" None
       (Demo.holding None None Demo.loader_sources)).1 = Return tt.
Proof.
  apply (staging_survives_failed_commands Demo.idle_tools "0xffffffff" None
           (Demo.holding None None Demo.loader_sources)).
  - reflexivity.
  - no_directory_candidates.
  - reflexivity.
  - reflexivity.
Defined.
